(** * grequests: request construction and client configuration

    A shallow embedding of [request.go] (package [grequests]) and the
    properties of its request builder: body-encoding selection, URL
    parameter merging, header attachment, client selection and proxy
    resolution.

    Go maps are finite maps ([gmap]); a Go [(value, error)] return is a
    [result]; a run-time panic is an explicit [Panic] outcome; the effects on
    the upload stream and on the transport are recorded as a trace of
    events. *)

From Stdlib Require Import ZArith Ascii String.
From stdpp Require Import gmap strings list sorting.

Local Open Scope string_scope.

(** ** Errors, results and outcomes *)

(** Go [error] values.  [io_EOF] is the sentinel [io.EOF];
    [ErrNilFileContents] is the error built in [createMultiPartPostRequest];
    [EscapeError], [ErrSemicolon] and [ErrQueryParamsLimit] are the errors
    of [net/url]'s query parser; [LibError] stands for any other error of a
    library call. *)
Inductive error : Type :=
  | io_EOF
  | ErrNilFileContents
  | EscapeError (s : string)
  | ErrSemicolon
  | ErrQueryParamsLimit
  | LibError (msg : string).

Global Instance error_eq_dec : EqDecision error.
Proof. solve_decision. Defined.

(** A Go [(T, error)] return value. *)
Inductive result (A : Type) : Type :=
  | Ok (a : A)
  | Err (e : error).
Arguments Ok {A} a.
Arguments Err {A} e.

(** What a call of this package can do: return a value, return an error, or
    panic (abort the goroutine, and with it the process). *)
Inductive outcome (A : Type) : Type :=
  | Ret (a : A)
  | Fail (e : error)
  | Panic (msg : string).
Arguments Ret {A} a.
Arguments Fail {A} e.
Arguments Panic {A} msg.

Definition of_result {A} (r : result A) : outcome A :=
  match r with
  | Ok a => Ret a
  | Err e => Fail e
  end.

(** ** Bytes and strings *)

Module Bytes.

Definition code (c : ascii) : nat := nat_of_ascii c.

Definition between (lo hi : nat) (c : ascii) : bool :=
  (lo <=? code c)%nat && (code c <=? hi)%nat.

Definition is_lower : ascii -> bool := between 97 122.
Definition is_upper : ascii -> bool := between 65 90.
Definition is_digit : ascii -> bool := between 48 57.
Definition is_alnum (c : ascii) : bool :=
  is_lower c || is_upper c || is_digit c.

Definition to_upper (c : ascii) : ascii :=
  if is_lower c then ascii_of_nat (code c - 32) else c.
Definition to_lower (c : ascii) : ascii :=
  if is_upper c then ascii_of_nat (code c + 32) else c.

(** [c] occurs in [s]. *)
Fixpoint member (c : ascii) (s : string) : bool :=
  match s with
  | EmptyString => false
  | String d s' => if Ascii.eqb c d then true else member c s'
  end.

Definition is_hex (c : ascii) : bool :=
  is_digit c || between 97 102 c || between 65 70 c.

Definition unhex (c : ascii) : nat :=
  if is_digit c then code c - 48
  else if between 97 102 c then code c - 97 + 10
  else if between 65 70 c then code c - 65 + 10
  else 0.

Definition upperhex (n : nat) : ascii :=
  match String.get n "0123456789ABCDEF" with
  | Some c => c
  | None => "0"%char
  end.

End Bytes.

(** Package [strings]. *)
Module Strings.

(** [strings.HasPrefix s p]. *)
Definition HasPrefix (s p : string) : bool := String.prefix p s.

(** [strings.Cut s sep] for a one-byte separator: the text before the first
    [sep], the text after it, and whether [sep] occurs. *)
Fixpoint Cut (s : string) (sep : ascii) : string * string * bool :=
  match s with
  | EmptyString => (EmptyString, EmptyString, false)
  | String c s' =>
      if Ascii.eqb c sep then (EmptyString, s', true)
      else let '(b, a, f) := Cut s' sep in (String c b, a, f)
  end.

(** The segments of [s] between occurrences of [sep], in order. *)
Fixpoint Split (s : string) (sep : ascii) : list string :=
  match s with
  | EmptyString => [EmptyString]
  | String c s' =>
      if Ascii.eqb c sep then EmptyString :: Split s' sep
      else match Split s' sep with
           | seg :: segs => String c seg :: segs
           | [] => [String c EmptyString]
           end
  end.

(** [strings.Count s sep] for a one-byte [sep]: how often it occurs. *)
Fixpoint Count (s : string) (sep : ascii) : nat :=
  match s with
  | EmptyString => 0
  | String c s' => (if Ascii.eqb c sep then 1 else 0) + Count s' sep
  end.

(** [strings.Replace s old new (-1)] for a non-empty [old]: every
    non-overlapping occurrence of [old], scanning from the left, becomes
    [new].  [skip] counts the bytes of a match still to be dropped. *)
Fixpoint Replace_from (skip : nat) (s old new : string) : string :=
  match s with
  | EmptyString => EmptyString
  | String c s' =>
      match skip with
      | S k => Replace_from k s' old new
      | O =>
          if HasPrefix s old
          then new +:+ Replace_from (String.length old - 1) s' old new
          else String c (Replace_from 0 s' old new)
      end
  end.

Definition Replace (s old new : string) : string := Replace_from 0 s old new.

(** [strings.Join [a; b] sep]. *)
Definition Join2 (a b sep : string) : string := a +:+ sep +:+ b.

End Strings.

(** ** Package [net/url]: query values *)

Module Url.

(** [url.Values] is [map[string][]string]. *)
Abbreviation Values := (gmap string (list string)).

(** [shouldEscape c encodeQueryComponent]: everything but the unreserved
    bytes (letters, digits, [-], [_], [.], [~]) is escaped. *)
Definition shouldEscape (c : ascii) : bool :=
  negb (Bytes.is_alnum c || Bytes.member c "-_.~").

Definition escape_byte (c : ascii) : string :=
  if shouldEscape c then
    if Ascii.eqb c " " then "+"
    else String "%" (String (Bytes.upperhex (Bytes.code c / 16))
                   (String (Bytes.upperhex (Bytes.code c mod 16)) EmptyString))
  else String c EmptyString.

(** [url.QueryEscape]. *)
Fixpoint QueryEscape (s : string) : string :=
  match s with
  | EmptyString => EmptyString
  | String c s' => escape_byte c +:+ QueryEscape s'
  end.

(** [url.QueryUnescape]: [%XY] becomes the byte [XY], [+] becomes a space;
    a [%] that is not followed by two hexadecimal digits is an
    [EscapeError] carrying the (at most three) offending bytes. *)
Fixpoint QueryUnescape (s : string) : result string :=
  match s with
  | EmptyString => Ok EmptyString
  | String c s' =>
      if Ascii.eqb c "%" then
        match s' with
        | String h1 (String h2 s'') =>
            if Bytes.is_hex h1 && Bytes.is_hex h2 then
              match QueryUnescape s'' with
              | Ok t =>
                  Ok (String (ascii_of_nat (Bytes.unhex h1 * 16 + Bytes.unhex h2)) t)
              | Err e => Err e
              end
            else Err (EscapeError (String c (String h1 (String h2 EmptyString))))
        | _ => Err (EscapeError s)
        end
      else
        match QueryUnescape s' with
        | Ok t => Ok (String (if Ascii.eqb c "+" then " "%char else c) t)
        | Err e => Err e
        end
  end.

(** One round of the loop of [url.parseQuery] on the segment [seg] cut off
    at the next [&]: a segment holding a [;] sets the error, an empty one
    is skipped, one that does not unescape is dropped and its error kept
    if it is the first, and any other is appended under its key. *)
Definition parseQuery_step (st : Values * option error) (seg : string)
    : Values * option error :=
  let '(m, err) := st in
  if Bytes.member ";" seg then (m, Some ErrSemicolon)
  else if decide (seg = EmptyString) then (m, err)
  else
    let '(key, value, _) := Strings.Cut seg "=" in
    match QueryUnescape key with
    | Err e1 => (m, if err is None then Some e1 else err)
    | Ok key =>
        match QueryUnescape value with
        | Err e1 => (m, if err is None then Some e1 else err)
        | Ok value => (<[key := (m !!! key ++ [value])%list]> m, err)
        end
    end.

(** [defaultMaxParams]: the most parameters a query may hold. *)
Definition defaultMaxParams : N := 10000.

(** [urlParamsWithinMax params], with the run-time setting
    [urlmaxqueryparams] left unset. *)
Definition urlParamsWithinMax (params : nat) : bool :=
  (N.of_nat params <=? defaultMaxParams)%N.

(** [url.ParseQuery]: "ParseQuery always returns a non-nil map containing
    all the valid query parameters found; err describes the first decoding
    error encountered, if any."  A query with more [&]-separated parameters
    than [defaultMaxParams] is refused before any of them is read: the map
    is empty and the error says that the limit is exceeded. *)
Definition ParseQuery (query : string) : Values * option error :=
  if urlParamsWithinMax (Strings.Count query "&" + 1)
  then foldl parseQuery_step (∅, None) (Strings.Split query "&")
  else (∅, Some ErrQueryParamsLimit).

(** [Values.Set]: [v[key] = []string{value}]. *)
Definition Set_ (v : Values) (key value : string) : Values :=
  <[key := [value]]> v.

(** [sort.Strings] over the keys of a [Values]. *)
Definition sorted_keys (v : Values) : list string :=
  merge_sort String.le (map_to_list v).*1.

(** The buffer writes of [Values.Encode] for one key/value pair. *)
Definition write_pair (buf : string) (k v : string) : string :=
  (if decide (buf = EmptyString) then buf else buf +:+ "&")
    +:+ QueryEscape k +:+ "=" +:+ QueryEscape v.

(** [Values.Encode]: "Encode encodes the values into URL-encoded form
    (bar=baz&foo=quux) sorted by key." *)
Definition Encode (v : Values) : string :=
  foldl (fun buf k => foldl (fun buf x => write_pair buf k x) buf (v !!! k))
        EmptyString (sorted_keys v).

End Url.

(** ** Package [net/textproto] and [http.Header] *)

Module Textproto.

(** [validHeaderFieldByte]: the token bytes of RFC 7230. *)
Definition validHeaderFieldByte (c : ascii) : bool :=
  Bytes.is_alnum c || Bytes.member c "!#$%&'*+-.^_`|~".

Fixpoint all_valid (s : string) : bool :=
  match s with
  | EmptyString => true
  | String c s' => validHeaderFieldByte c && all_valid s'
  end.

(** The rewriting loop of [canonicalMIMEHeaderKey]: upper case at the start
    and after a [-], lower case elsewhere. *)
Fixpoint canon_from (upper : bool) (s : string) : string :=
  match s with
  | EmptyString => EmptyString
  | String c s' =>
      let c' := if upper then Bytes.to_upper c else Bytes.to_lower c in
      String c' (canon_from (Ascii.eqb c' "-") s')
  end.

(** [textproto.CanonicalMIMEHeaderKey]: a key with a byte that is not a
    token byte is returned unchanged. *)
Definition CanonicalMIMEHeaderKey (s : string) : string :=
  if all_valid s then canon_from true s else s.

End Textproto.

Module HttpHeader.

(** [http.Header] is [map[string][]string]. *)
Abbreviation t := (gmap string (list string)).

Definition Set_ (h : t) (key value : string) : t :=
  <[Textproto.CanonicalMIMEHeaderKey key := [value]]> h.

Definition Add (h : t) (key value : string) : t :=
  <[Textproto.CanonicalMIMEHeaderKey key :=
      (h !!! Textproto.CanonicalMIMEHeaderKey key ++ [value])%list]> h.

(** [Header.Get]: the first value under the canonical key, or [""]. *)
Definition Get (h : t) (key : string) : string :=
  match h !! Textproto.CanonicalMIMEHeaderKey key with
  | Some (v :: _) => v
  | _ => EmptyString
  end.

End HttpHeader.

(** ** What the package takes as given

    The library calls whose results this file does not look into, the Go
    run time's choice of a map iteration order, and the one package constant
    that [request.go] uses and another file declares. *)

(** An upload stream ([io.ReadCloser] supplied by the caller): the bytes it
    delivers and the error that ends it, [io_EOF] for a clean end. *)
Record ReadCloser : Type := {
  rc_data : string;
  rc_end : error
}.

Class Env : Type := {
  (** [url.URL] and what the package reads of it. *)
  url_URL : Type;
  url_Parse : string -> result url_URL;
  URL_Scheme : url_URL -> string;
  URL_RawQuery : url_URL -> string;
  URL_String : url_URL -> string;
  (** Non-nil values of [interface{}], and the encoders, which take a
      nil-able value and write to a [bytes.Buffer] or fail. *)
  Any : Type;
  json_Encode : option Any -> result string;
  xml_Encode : option Any -> result string;
  (** The part of [http.NewRequest] that can fail: the method is checked and
      the URL parsed. *)
  http_NewRequest_parse : string -> string -> result (string * url_URL);
  (** [http.ProxyFromEnvironment], which reads only the request's URL. *)
  http_ProxyFromEnvironment : url_URL -> result (option url_URL);
  (** [mime.TypeByExtension]. *)
  mime_TypeByExtension : string -> string;
  (** [base64.StdEncoding.EncodeToString], used by [SetBasicAuth]. *)
  base64_EncodeToString : string -> string;
  (** [sanitizeCookieName] and [sanitizeCookieValue], used by [AddCookie]. *)
  sanitizeCookieName : string -> string;
  sanitizeCookieValue : string -> string;
  (** [multipart.Writer] over a [bytes.Buffer]. *)
  multipart_Writer : Type;
  multipart_NewWriter : multipart_Writer;
  multipart_CreateFormFile : multipart_Writer -> string -> string -> result multipart_Writer;
  multipart_part_Write : multipart_Writer -> string -> multipart_Writer;
  multipart_WriteField : multipart_Writer -> string -> string -> multipart_Writer;
  multipart_Close : multipart_Writer -> result multipart_Writer;
  multipart_FormDataContentType : multipart_Writer -> string;
  multipart_Bytes : multipart_Writer -> string;
  (** [http.Response]. *)
  http_Response : Type;
  (** The order in which [range] visits a map is not specified. *)
  range_order : gmap string string -> list (string * string);
  (** [localUserAgent], a constant of the package declared outside
      [request.go]. *)
  localUserAgent : string
}.

Section Model.
Context `{E : Env}.

(** The entries of [m] in the order [range] visits them: the order the run
    time chose when it is an enumeration of [m]. *)
Definition map_range (m : gmap string string) : list (string * string) :=
  if decide (range_order m ≡ₚ map_to_list m) then range_order m
  else map_to_list m.

(** ** The data model *)

(** What a request body ([io.Reader]) can be in this package. *)
Inductive io_Reader : Type :=
  | nil_Reader
  | bytes_Buffer (b : string)
  | strings_Reader (s : string)
  | stream_Reader (rc : ReadCloser).

(** [http.Request], as far as the package sets it. *)
Record Request : Type := {
  Method : string;
  URL : url_URL;
  Header : HttpHeader.t;
  Body : io_Reader
}.

(** [http.Cookie]: [AddCookie] uses the name and the value. *)
Record Cookie : Type := {
  Name : string;
  Value : string
}.

(** [cookiejar.Jar]; the package builds one, over [publicsuffix.List]. *)
Inductive CookieJar : Type :=
  | cookiejar_New_publicsuffix.

(** [http.Transport], with [net.Dialer] and [tls.Config] flattened. *)
Record Transport : Type := {
  Proxy : Request -> result (option url_URL);
  Dial_Timeout : Z;
  Dial_KeepAlive : Z;
  tr_TLSHandshakeTimeout : Z;
  TLSClientConfig_InsecureSkipVerify : bool;
  tr_DisableCompression : bool
}.

(** A [*http.Client]: the shared [http.DefaultClient], a client of the
    caller's, or one allocated by [BuildHTTPClient]. *)
Inductive Client : Type :=
  | http_DefaultClient
  | caller_Client (id : nat)
  | new_Client (Jar : CookieJar) (transport : Transport).

(** Modelled from the spec: the [FileUpload] struct is declared outside
    [request.go]; the spec calls it "a named byte stream", and the source
    reads its fields [FileName] and [FileContents] (a nil-able
    [io.ReadCloser]). *)
Record FileUpload : Type := {
  FileName : string;
  FileContents : option ReadCloser
}.

(** [RequestOptions].  A map field that the code only measures, indexes or
    ranges over is a [gmap] (nil and empty behave alike); [Data], [JSON],
    [XML], [File], [Auth] and [HTTPClient] are compared with nil and so
    are options.  [time.Duration] is a number of nanoseconds. *)
Record RequestOptions : Type := {
  Data : option (gmap string string);
  Params : gmap string string;
  File : option FileUpload;
  JSON : option Any;
  XML : option Any;
  Headers : gmap string string;
  InsecureSkipVerify : bool;
  DisableCompression : bool;
  UserAgent : string;
  Auth : option (list string);
  IsAjax : bool;
  Cookies : list Cookie;
  UseCookieJar : bool;
  Proxies : gmap string (option url_URL);
  TLSHandshakeTimeout : Z;
  DialTimeout : Z;
  DialKeepAlive : Z;
  HTTPClient : option Client
}.

(** [RequestOptions{}]: every field at its zero value. *)
Definition zero_RequestOptions : RequestOptions := {|
  Data := None; Params := ∅; File := None; JSON := None; XML := None;
  Headers := ∅; InsecureSkipVerify := false; DisableCompression := false;
  UserAgent := EmptyString; Auth := None; IsAjax := false; Cookies := [];
  UseCookieJar := false; Proxies := ∅; TLSHandshakeTimeout := 0;
  DialTimeout := 0; DialKeepAlive := 0; HTTPClient := None
|}.

(** [time.Second], in nanoseconds. *)
Definition time_Second : Z := 1000000000.

Definition dialTimeout : Z := 30 * time_Second.
Definition dialKeepAlive : Z := 30 * time_Second.
Definition tslHandshakeTimeout : Z := 10 * time_Second.

(** A nil map ranges like an empty one. *)
Definition entries (m : option (gmap string string)) : list (string * string) :=
  map_range (default ∅ m).

Definition set_Header (req : Request) (h : HttpHeader.t) : Request :=
  {| Method := Method req; URL := URL req; Header := h; Body := Body req |}.

(** [req.Header.Set key value] and [req.Header.Add key value]. *)
Definition Header_Set (req : Request) (key value : string) : Request :=
  set_Header req (HttpHeader.Set_ (Header req) key value).
Definition Header_Add (req : Request) (key value : string) : Request :=
  set_Header req (HttpHeader.Add (Header req) key value).

(** [http.NewRequest]: when the method and the URL are accepted, a request
    with that method and URL, an empty header and the given body. *)
Definition http_NewRequest (method url : string) (body : io_Reader)
    : result Request :=
  match http_NewRequest_parse method url with
  | Err err => Err err
  | Ok (m, u) => Ok {| Method := m; URL := u; Header := ∅; Body := body |}
  end.

(** [req.SetBasicAuth username password]. *)
Definition SetBasicAuth (req : Request) (username password : string) : Request :=
  Header_Set req "Authorization"
    ("Basic " +:+ base64_EncodeToString (username +:+ ":" +:+ password)).

(** [req.AddCookie c]. *)
Definition AddCookie (req : Request) (c : Cookie) : Request :=
  let s := sanitizeCookieName (Name c) +:+ "=" +:+ sanitizeCookieValue (Value c) in
  let old := HttpHeader.Get (Header req) "Cookie" in
  if decide (old ≠ EmptyString) then Header_Set req "Cookie" (old +:+ "; " +:+ s)
  else Header_Set req "Cookie" s.

(** ** Effects

    A call leaves a trace: the upload stream is drained ([stream_Read], by
    [io.Copy]) or closed ([stream_Close]), and a request is handed to a
    client ([client_Do]). *)
Inductive event : Type :=
  | stream_Read
  | stream_Close
  | client_Do (c : Client) (req : Request).

Definition M (A : Type) : Type := list event * outcome A.

Definition pure {A} (o : outcome A) : M A := ([], o).

Definition bind {A B} (m : M A) (k : A -> M B) : M B :=
  match m with
  | (tr, Ret a) => let '(tr', o) := k a in ((tr ++ tr')%list, o)
  | (tr, Fail e) => (tr, Fail e)
  | (tr, Panic msg) => (tr, Panic msg)
  end.

(** The event [ev] happens, then [m] runs. *)
Definition emit {A} (ev : event) (m : M A) : M A := (ev :: m.1, m.2).

(** [defer]: the events [deferred] happen when the rest of the function,
    [body], is over, however it ends. *)
Definition defer {A} (deferred : list event) (body : M A) : M A :=
  ((body.1 ++ deferred)%list, body.2).

(** How many times the upload stream was closed. *)
Fixpoint closes (tr : list event) : nat :=
  match tr with
  | [] => 0
  | stream_Close :: tr' => S (closes tr')
  | _ :: tr' => closes tr'
  end.

(** The requests handed to a client. *)
Definition dispatched (tr : list event) : list (Client * Request) :=
  omap (fun ev => match ev with client_Do c req => Some (c, req) | _ => None end) tr.

(** [io.Copy dst src] from an upload stream: everything the stream
    delivers is written, and the error is the one that ended the stream
    unless that was [io.EOF]. *)
Definition io_Copy (src : ReadCloser) : string * option error :=
  (rc_data src, if decide (rc_end src = io_EOF) then None else Some (rc_end src)).

Definition nil_dereference : string := "invalid memory address or nil pointer dereference".
Definition index_out_of_range : string := "index out of range".

(** ** The request builders *)

Definition createBasicJSONRequest (httpMethod userURL : string) (ro : RequestOptions)
    : outcome Request :=
  match json_Encode (JSON ro) with
  | Err err => Fail err
  | Ok tempBuffer =>
      match http_NewRequest httpMethod userURL (bytes_Buffer tempBuffer) with
      | Err err => Fail err
      | Ok req => Ret (Header_Set req "Content-Type" "application/json")
      end
  end.

Definition createBasicXMLRequest (httpMethod userURL : string) (ro : RequestOptions)
    : outcome Request :=
  match xml_Encode (XML ro) with
  | Err err => Fail err
  | Ok tempBuffer =>
      match http_NewRequest httpMethod userURL (bytes_Buffer tempBuffer) with
      | Err err => Fail err
      | Ok req => Ret (Header_Set req "Content-Type" "application/xml")
      end
  end.

Definition encodePostValues (postValues : option (gmap string string)) : string :=
  let urlValues :=
    foldl (fun (urlValues : Url.Values) kv => Url.Set_ urlValues kv.1 kv.2)
          ∅ (entries postValues) in
  Url.Encode urlValues.

Definition createBasicRequest (httpMethod userURL : string) (ro : RequestOptions)
    : outcome Request :=
  match http_NewRequest httpMethod userURL
          (strings_Reader (encodePostValues (Data ro))) with
  | Err err => Fail err
  | Ok req => Ret (Header_Set req "Content-Type" "application/x-www-form-urlencoded")
  end.

Definition createMultiPartPostRequest (httpMethod userURL : string) (ro : RequestOptions)
    : M Request :=
  match File ro with
  | None => pure (Panic nil_dereference)
  | Some file =>
      match multipart_CreateFormFile multipart_NewWriter "file" (FileName file) with
      | Err err => pure (Fail err)
      | Ok writer =>
          match FileContents file with
          | None => pure (Fail ErrNilFileContents)
          | Some contents =>
              (* What follows the copy: the close is deferred here. *)
              let after_copy (written : string) : M Request :=
                defer [stream_Close]
                  (let multipartWriter :=
                     foldl (fun w kv => multipart_WriteField w kv.1 kv.2)
                           (multipart_part_Write writer written)
                           (entries (Data ro)) in
                   match multipart_Close multipartWriter with
                   | Err err => pure (Fail err)
                   | Ok multipartWriter =>
                       match http_NewRequest httpMethod userURL
                               (bytes_Buffer (multipart_Bytes multipartWriter)) with
                       | Err err => pure (Fail err)
                       | Ok req =>
                           pure (Ret (Header_Add req "Content-Type"
                                        (multipart_FormDataContentType multipartWriter)))
                       end
                   end) in
              let '(written, err) := io_Copy contents in
              emit stream_Read
                match err with
                | Some e =>
                    if decide (e <> io_EOF) then pure (Fail e) else after_copy written
                | None => after_copy written
                end
          end
      end
  end.

(** The body handed to [http.NewRequest] for an upload stream; a nil
    stream is a nil body. *)
Definition as_Reader (contents : option ReadCloser) : io_Reader :=
  match contents with
  | Some rc => stream_Reader rc
  | None => nil_Reader
  end.

Definition createFileUploadRequest (httpMethod userURL : string) (ro : RequestOptions)
    : M Request :=
  if decide (httpMethod = "POST") then createMultiPartPostRequest httpMethod userURL ro
  else
    match File ro with
    | None => pure (Panic nil_dereference)
    | Some file =>
        match http_NewRequest httpMethod userURL (as_Reader (FileContents file)) with
        | Err err => pure (Fail err)
        | Ok req =>
            pure (Ret (Header_Set req "Content-Type" (mime_TypeByExtension (FileName file))))
        end
    end.

Definition buildHTTPRequest (httpMethod userURL : string) (ro : RequestOptions)
    : M Request :=
  if decide (is_Some (JSON ro)) then pure (createBasicJSONRequest httpMethod userURL ro)
  else if decide (is_Some (XML ro)) then pure (createBasicXMLRequest httpMethod userURL ro)
  else if decide (is_Some (File ro)) then createFileUploadRequest httpMethod userURL ro
  else if decide (is_Some (Data ro)) then pure (createBasicRequest httpMethod userURL ro)
  else pure (of_result (http_NewRequest httpMethod userURL nil_Reader)).

(** ** The client builder *)

Definition proxySettings (ro : RequestOptions) (req : Request)
    : result (option url_URL) :=
  if decide (size (Proxies ro) = 0) then http_ProxyFromEnvironment (URL req)
  else
    match Proxies ro !! URL_Scheme (URL req) with
    | Some proxy => Ok proxy
    | None => http_ProxyFromEnvironment (URL req)
    end.

Definition DontUseDefaultClient (ro : RequestOptions) : bool :=
  Bool.eqb (InsecureSkipVerify ro) true ||
  Bool.eqb (DisableCompression ro) true ||
  negb (size (Proxies ro) =? 0)%nat ||
  negb (TLSHandshakeTimeout ro =? 0)%Z ||
  negb (DialTimeout ro =? 0)%Z ||
  negb (DialKeepAlive ro =? 0)%Z ||
  negb (length (Cookies ro) =? 0)%nat ||
  negb (Bool.eqb (UseCookieJar ro) false).

Definition set_timeouts (ro : RequestOptions) (tls dial keepAlive : Z)
    : RequestOptions := {|
  Data := Data ro; Params := Params ro; File := File ro; JSON := JSON ro;
  XML := XML ro; Headers := Headers ro;
  InsecureSkipVerify := InsecureSkipVerify ro;
  DisableCompression := DisableCompression ro; UserAgent := UserAgent ro;
  Auth := Auth ro; IsAjax := IsAjax ro; Cookies := Cookies ro;
  UseCookieJar := UseCookieJar ro; Proxies := Proxies ro;
  TLSHandshakeTimeout := tls; DialTimeout := dial; DialKeepAlive := keepAlive;
  HTTPClient := HTTPClient ro
|}.

Definition BuildHTTPClient (ro : RequestOptions) : Client :=
  match HTTPClient ro with
  | Some c => c
  | None =>
      if negb (DontUseDefaultClient ro) then http_DefaultClient
      else
        let ro := set_timeouts ro
          (if (TLSHandshakeTimeout ro =? 0)%Z then tslHandshakeTimeout
           else TLSHandshakeTimeout ro)
          (if (DialTimeout ro =? 0)%Z then dialTimeout else DialTimeout ro)
          (if (DialKeepAlive ro =? 0)%Z then dialKeepAlive else DialKeepAlive ro) in
        new_Client cookiejar_New_publicsuffix {|
          Proxy := proxySettings ro;
          Dial_Timeout := DialTimeout ro;
          Dial_KeepAlive := DialKeepAlive ro;
          tr_TLSHandshakeTimeout := TLSHandshakeTimeout ro;
          TLSClientConfig_InsecureSkipVerify := InsecureSkipVerify ro;
          tr_DisableCompression := DisableCompression ro
        |}
  end.

(** ** The request assembler *)

(** The overlay loop of [buildURLParams]. *)
Definition overlay (parsedQuery : Url.Values) (params : list (string * string))
    : Url.Values :=
  foldl (fun (q : Url.Values) kv => Url.Set_ q kv.1 kv.2) parsedQuery params.

Definition buildURLParams (userURL : string) (params : gmap string string)
    : result string :=
  match url_Parse userURL with
  | Err err => Err err
  | Ok parsedURL =>
      let '(parsedQuery, err) := Url.ParseQuery (URL_RawQuery parsedURL) in
      let parsedQuery := overlay parsedQuery (map_range params) in
      Ok (Strings.Join2
            (Strings.Replace (URL_String parsedURL)
               ("?" +:+ URL_RawQuery parsedURL) EmptyString)
            (Url.Encode parsedQuery)
            "?")
  end.

Definition addHTTPHeaders (ro : RequestOptions) (req : Request) : outcome Request :=
  let req := foldl (fun req kv => Header_Set req kv.1 kv.2) req
               (map_range (Headers ro)) in
  let req :=
    if decide (UserAgent ro ≠ EmptyString) then Header_Set req "User-Agent" (UserAgent ro)
    else Header_Set req "User-Agent" localUserAgent in
  let after_auth : outcome Request :=
    match Auth ro with
    | None => Ret req
    | Some auth =>
        match auth !! 0%nat, auth !! 1%nat with
        | Some username, Some password => Ret (SetBasicAuth req username password)
        | _, _ => Panic index_out_of_range
        end
    end in
  match after_auth with
  | Ret req =>
      Ret (if Bool.eqb (IsAjax ro) true
           then Header_Set req "X-Requested-With" "XMLHttpRequest"
           else req)
  | other => other
  end.

Definition addCookies (ro : RequestOptions) (req : Request) : Request :=
  foldl AddCookie req (Cookies ro).

(** The transport: [httpClient.Do req]. *)
Context (Do : Client -> Request -> result http_Response).

Definition buildRequest (httpMethod url : string) (ro : option RequestOptions)
    (httpClient : option Client) : M http_Response :=
  let ro := match ro with Some ro => ro | None => zero_RequestOptions end in
  let httpClient :=
    match httpClient with Some c => c | None => BuildHTTPClient ro end in
  match (if decide (size (Params ro) ≠ 0) then buildURLParams url (Params ro)
         else Ok url) with
  | Err err => pure (Fail err)
  | Ok url =>
      bind (buildHTTPRequest httpMethod url ro) (fun req =>
      bind (pure (addHTTPHeaders ro req)) (fun req =>
      let req := addCookies ro req in
      emit (client_Do httpClient req) (pure (of_result (Do httpClient req)))))
  end.

(** [buildResponse], a function of the package declared outside
    [request.go]: it is handed the two results of [buildRequest]. *)
Context {Response : Type} (buildResponse : result http_Response -> result Response).

(** [buildResponse (buildRequest ...)]: a panic of [buildRequest] leaves
    nothing to hand over. *)
Definition then_buildResponse (run : M http_Response) : M Response :=
  (run.1,
   match run.2 with
   | Ret resp => of_result (buildResponse (Ok resp))
   | Fail err => of_result (buildResponse (Err err))
   | Panic msg => Panic msg
   end).

Definition doRegularRequest (requestVerb url : string) (ro : option RequestOptions)
    : M Response :=
  then_buildResponse (buildRequest requestVerb url ro None).

Definition doSessionRequest (requestVerb url : string) (ro : option RequestOptions)
    (httpClient : option Client) : M Response :=
  then_buildResponse (buildRequest requestVerb url ro httpClient).

End Model.

(** ** The serializations the specification describes

    The URL-encoded form of a list of key/value pairs, pair after pair in
    the order of the list, joined by [&]; against these the encoders of the
    source are compared. *)

Module Spec.

(** The bytes that URL encoding leaves as they are. *)
Definition unreserved : string :=
  "ABCDEFGHIJKLMNOPQRSTUVWXYZabcdefghijklmnopqrstuvwxyz0123456789-_.~".

(** The upper-case hexadecimal digit of a number below sixteen. *)
Definition hex_digit (n : N) : ascii :=
  if (n <? 10)%N then ascii_of_N (48 + n) else ascii_of_N (55 + n).

(** The URL-encoded form of one byte: an unreserved byte stands for itself,
    a space is written [+], and any other byte is [%] followed by its value
    as two hexadecimal digits. *)
Definition encoded_byte (c : ascii) : string :=
  if existsb (Ascii.eqb c) (list_ascii_of_string unreserved)
  then String c EmptyString
  else if Ascii.eqb c " " then "+"
  else String "%" (String (hex_digit (N_of_ascii c / 16))
                     (String (hex_digit (N_of_ascii c mod 16)) EmptyString)).

(** The URL-encoded form ([application/x-www-form-urlencoded]) of a text. *)
Fixpoint url_encoded (s : string) : string :=
  match s with
  | EmptyString => EmptyString
  | String c s' => encoded_byte c +:+ url_encoded s'
  end.

Definition pair_text (k v : string) : string :=
  url_encoded k +:+ "=" +:+ url_encoded v.

Fixpoint join_amp (ps : list string) : string :=
  match ps with
  | [] => EmptyString
  | [p] => p
  | p :: ps' => p +:+ "&" +:+ join_amp ps'
  end.

(** The form body of the pairs [pairs], in the order given. *)
Definition form_encoding (pairs : list (string * string)) : string :=
  join_amp (map (fun kv => pair_text kv.1 kv.2) pairs).

(** The query string of [q] with its keys taken in the order [keys], the
    values of one key in their stored order. *)
Definition query_encoding (keys : list string) (q : Url.Values) : string :=
  join_amp (flat_map (fun k => map (pair_text k) (q !!! k)) keys).

(** The values that the pairs [pairs] give the key [k], in their order. *)
Definition values_of (k : string) (pairs : list (string * string)) : list string :=
  (filter (fun kv => kv.1 = k) pairs).*2.

End Spec.

(** ** Texts the properties are stated against *)

(** The strings [ps] joined by [sep]. *)
Fixpoint join_with (sep : string) (ps : list string) : string :=
  match ps with
  | [] => EmptyString
  | [p] => p
  | p :: ps' => p +:+ sep +:+ join_with sep ps'
  end.

(** The [name=value] text that [AddCookie] writes for a cookie. *)
Definition cookie_text `{E : Env} (c : Cookie) : string :=
  sanitizeCookieName (Name c) +:+ "=" +:+ sanitizeCookieValue (Value c).

(** The client a call of [buildRequest] sends through. *)
Definition chosen_client `{E : Env} (ro : option RequestOptions)
    (httpClient : option Client) : Client :=
  match httpClient with
  | Some c => c
  | None => BuildHTTPClient (default zero_RequestOptions ro)
  end.

(** The text [escape_byte] writes for [c] has one of the three shapes that
    [QueryUnescape] reads back as [c]: the byte itself, [+] for a space, or
    [%] and two hexadecimal digits that make up [c]. *)
Definition escape_shape (c : ascii) : bool :=
  match Url.escape_byte c with
  | String d EmptyString =>
      negb (Ascii.eqb d "%") && (if Ascii.eqb d "+" then Ascii.eqb c " " else Ascii.eqb c d)
  | String p (String h1 (String h2 EmptyString)) =>
      Ascii.eqb p "%" && Bytes.is_hex h1 && Bytes.is_hex h2 &&
      Ascii.eqb (ascii_of_nat (Bytes.unhex h1 * 16 + Bytes.unhex h2)) c
  | _ => false
  end.

(** The text [escape_byte] writes holds none of [&], [;] and [=]. *)
Definition escape_clean (c : ascii) : bool :=
  negb (Bytes.member "&" (Url.escape_byte c)) &&
  negb (Bytes.member ";" (Url.escape_byte c)) &&
  negb (Bytes.member "=" (Url.escape_byte c)).

(** Every value list of [q] holds a value. *)
Definition no_empty_values (q : Url.Values) : Prop :=
  forall k, q !! k <> Some [].

(** The number of key/value pairs that [q] holds. *)
Definition pair_count (q : Url.Values) : nat :=
  sum_list (length <$> (map_to_list q).*2).

(** ** The client decision the specification describes *)

(** An override of the client is set in [ro]: the conditions under which
    the specification has a dedicated client built. *)
Definition overridden `{E : Env} (ro : RequestOptions) : Prop :=
  InsecureSkipVerify ro = true \/
  DisableCompression ro = true \/
  Proxies ro <> ∅ \/
  TLSHandshakeTimeout ro <> 0%Z \/
  DialTimeout ro <> 0%Z \/
  DialKeepAlive ro <> 0%Z \/
  Cookies ro <> [] \/
  UseCookieJar ro = true.

(** ** A concrete instance

    Small stand-ins for the collaborators, on which the model runs: a URL is
    split at its first [#] and [?]; the MIME table is the built-in one of
    Go's [mime] package; the multipart writer keeps a readable log of its
    parts; the transport answers every request with status 200. *)

Module Sample.

Record simple_URL : Type := {
  su_base : string;
  su_query : string;
  su_fragment : string
}.

Fixpoint has_control (s : string) : bool :=
  match s with
  | EmptyString => false
  | String c s' =>
      (Bytes.code c <? 32)%nat || (Bytes.code c =? 127)%nat || has_control s'
  end.

Definition Parse (s : string) : result simple_URL :=
  if has_control s then Err (LibError "net/url: invalid control character in URL")
  else
    let '(rest, frag, _) := Strings.Cut s "#" in
    let '(base, query, _) := Strings.Cut rest "?" in
    Ok {| su_base := base; su_query := query; su_fragment := frag |}.

Definition Scheme (u : simple_URL) : string :=
  let '(scheme, _, found) := Strings.Cut (su_base u) ":" in
  if found then scheme else EmptyString.

Definition String_ (u : simple_URL) : string :=
  su_base u
    +:+ (if decide (su_query u = EmptyString) then EmptyString else "?" +:+ su_query u)
    +:+ (if decide (su_fragment u = EmptyString) then EmptyString
         else "#" +:+ su_fragment u).

Definition encode_bool (open close : string) (v : option bool) : result string :=
  Ok (open +:+ match v with
               | Some true => "true"
               | Some false => "false"
               | None => "null"
               end +:+ close).

Definition NewRequest_parse (method url : string) : result (string * simple_URL) :=
  let method := if decide (method = EmptyString) then "GET" else method in
  if Textproto.all_valid method then
    match Parse url with
    | Ok u => Ok (method, u)
    | Err e => Err e
    end
  else Err (LibError "net/http: invalid method").

(** [builtinTypesLower] of Go's [mime] package. *)
Definition builtinTypesLower : list (string * string) :=
  [ (".avif", "image/avif"); (".css", "text/css; charset=utf-8");
    (".gif", "image/gif"); (".htm", "text/html; charset=utf-8");
    (".html", "text/html; charset=utf-8"); (".jpeg", "image/jpeg");
    (".jpg", "image/jpeg"); (".js", "text/javascript; charset=utf-8");
    (".json", "application/json"); (".mjs", "text/javascript; charset=utf-8");
    (".pdf", "application/pdf"); (".png", "image/png");
    (".svg", "image/svg+xml"); (".wasm", "application/wasm");
    (".webp", "image/webp"); (".xml", "text/xml; charset=utf-8") ].

Fixpoint lower (s : string) : string :=
  match s with
  | EmptyString => EmptyString
  | String c s' => String (Bytes.to_lower c) (lower s')
  end.

(** [mime.TypeByExtension ext]: the type registered for the extension
    [ext], which "should begin with a leading dot", looked up as it is and
    then in lower case; [""] when there is none. *)
Definition TypeByExtension (ext : string) : string :=
  let table : gmap string string := list_to_map builtinTypesLower in
  match table !! ext with
  | Some v => v
  | None => default EmptyString (table !! lower ext)
  end.

(** Base64 with the standard alphabet and padding. *)
Definition alphabet : string :=
  "ABCDEFGHIJKLMNOPQRSTUVWXYZabcdefghijklmnopqrstuvwxyz0123456789+/".

Definition sextet (n : nat) : ascii :=
  default "="%char (String.get (n mod 64) alphabet).

(** The four characters of the three bytes [a], [b], [c]. *)
Definition s1 (a : nat) : ascii := sextet (a / 4).
Definition s2 (a b : nat) : ascii := sextet (a mod 4 * 16 + b / 16).
Definition s3 (b c : nat) : ascii := sextet (b mod 16 * 4 + c / 64).
Definition s4 (c : nat) : ascii := sextet c.

Fixpoint EncodeToString (s : string) : string :=
  match s with
  | EmptyString => EmptyString
  | String a EmptyString =>
      let a := Bytes.code a in
      String (s1 a) (String (s2 a 0) "==")
  | String a (String b EmptyString) =>
      let a := Bytes.code a in
      let b := Bytes.code b in
      String (s1 a) (String (s2 a b) (String (s3 b 0) "="))
  | String a (String b (String c s')) =>
      let a := Bytes.code a in
      let b := Bytes.code b in
      let c := Bytes.code c in
      String (s1 a) (String (s2 a b) (String (s3 b c)
        (String (s4 c) (EncodeToString s'))))
  end.

Global Instance env : Env := {|
  url_URL := simple_URL;
  url_Parse := Parse;
  URL_Scheme := Scheme;
  URL_RawQuery := su_query;
  URL_String := String_;
  Any := bool;
  json_Encode := encode_bool EmptyString EmptyString;
  xml_Encode := encode_bool "<bool>" "</bool>";
  http_NewRequest_parse := NewRequest_parse;
  http_ProxyFromEnvironment := fun _ => Ok None;
  mime_TypeByExtension := TypeByExtension;
  base64_EncodeToString := EncodeToString;
  sanitizeCookieName := fun s => s;
  sanitizeCookieValue := fun s => s;
  multipart_Writer := string;
  multipart_NewWriter := EmptyString;
  multipart_CreateFormFile := fun w field file =>
    Ok (w +:+ "[part " +:+ field +:+ " filename=" +:+ file +:+ "]");
  multipart_part_Write := fun w data => w +:+ data;
  multipart_WriteField := fun w k v => w +:+ "[field " +:+ k +:+ "]" +:+ v;
  multipart_Close := fun w => Ok (w +:+ "[end]");
  multipart_FormDataContentType := fun _ => "multipart/form-data; boundary=sample";
  multipart_Bytes := fun w => w;
  http_Response := nat;
  range_order := map_to_list;
  localUserAgent := "GRequests"
|}.

Definition Do (c : @Client env) (req : @Request env) : result nat := Ok 200%nat.

(** Options with the given form data, query parameters, file and
    credentials, and every other field at its zero value. *)
Definition options (data : option (gmap string string))
    (params : gmap string string) (file : option FileUpload)
    (auth : option (list string)) : @RequestOptions env := {|
  Data := data; Params := params; File := file; JSON := None; XML := None;
  Headers := ∅; InsecureSkipVerify := false; DisableCompression := false;
  UserAgent := EmptyString; Auth := auth; IsAjax := false; Cookies := [];
  UseCookieJar := false; Proxies := ∅; TLSHandshakeTimeout := 0;
  DialTimeout := 0; DialKeepAlive := 0; HTTPClient := None
|}.

(** Options that switch certificate verification off and set a dial
    timeout of five seconds. *)
Definition insecure : @RequestOptions env := {|
  Data := None; Params := ∅; File := None; JSON := None; XML := None;
  Headers := ∅; InsecureSkipVerify := true; DisableCompression := false;
  UserAgent := EmptyString; Auth := None; IsAjax := false; Cookies := [];
  UseCookieJar := false; Proxies := ∅; TLSHandshakeTimeout := 0;
  DialTimeout := 5000000000; DialKeepAlive := 0; HTTPClient := None
|}.

(** Options with the given headers, user agent, ajax flag and cookies. *)
Definition decorated (headers : gmap string string) (userAgent : string)
    (isAjax : bool) (cookies : list Cookie) : @RequestOptions env := {|
  Data := None; Params := ∅; File := None; JSON := None; XML := None;
  Headers := headers; InsecureSkipVerify := false; DisableCompression := false;
  UserAgent := userAgent; Auth := None; IsAjax := isAjax; Cookies := cookies;
  UseCookieJar := false; Proxies := ∅; TLSHandshakeTimeout := 0;
  DialTimeout := 0; DialKeepAlive := 0; HTTPClient := None
|}.

(** Options with the given XML value, and with a file and form data set
    beside it. *)
Definition xml_and_form (xml : option bool) : @RequestOptions env := {|
  Data := Some {[ "note" := "hi" ]}; Params := ∅;
  File := Some {| FileName := "notes.txt";
                  FileContents := Some {| rc_data := "0123456789"; rc_end := io_EOF |} |};
  JSON := None; XML := xml;
  Headers := ∅; InsecureSkipVerify := false; DisableCompression := false;
  UserAgent := EmptyString; Auth := None; IsAjax := false; Cookies := [];
  UseCookieJar := false; Proxies := ∅; TLSHandshakeTimeout := 0;
  DialTimeout := 0; DialKeepAlive := 0; HTTPClient := None
|}.

(** Options with a JSON value, and with an XML value, a file and form data
    set beside it. *)
Definition json_and_xml : @RequestOptions env := {|
  Data := Some {[ "note" := "hi" ]}; Params := ∅;
  File := Some {| FileName := "notes.txt";
                  FileContents := Some {| rc_data := "0123456789"; rc_end := io_EOF |} |};
  JSON := Some true; XML := Some false;
  Headers := ∅; InsecureSkipVerify := false; DisableCompression := false;
  UserAgent := EmptyString; Auth := None; IsAjax := false; Cookies := [];
  UseCookieJar := false; Proxies := ∅; TLSHandshakeTimeout := 0;
  DialTimeout := 0; DialKeepAlive := 0; HTTPClient := None
|}.

(** A request to [http://example.com/] with no header and no body. *)
Definition plain_request : @Request env := {|
  Method := "GET";
  URL := {| su_base := "http://example.com/"; su_query := EmptyString;
            su_fragment := EmptyString |};
  Header := ∅;
  Body := nil_Reader
|}.

(** [n] times the byte [&]. *)
Fixpoint ampersands (n : nat) : string :=
  match n with
  | O => EmptyString
  | S n' => String "&" (ampersands n')
  end.

(** An upload stream of ten bytes that ends cleanly, and one that breaks
    off after four bytes. *)
Definition ten_bytes : ReadCloser := {| rc_data := "0123456789"; rc_end := io_EOF |}.
Definition broken : ReadCloser :=
  {| rc_data := "0123"; rc_end := LibError "unexpected read error" |}.

End Sample.

(** * Properties *)

(** ** Strings *)

Lemma append_nil_l (s : string) : EmptyString +:+ s = s.
Proof. reflexivity. Qed.

Lemma append_cons (x : ascii) (a b : string) : String x a +:+ b = String x (a +:+ b).
Proof. reflexivity. Qed.

Lemma append_assoc (a b c : string) : (a +:+ b) +:+ c = a +:+ (b +:+ c).
Proof.
  induction a as [|x a IH]; [by rewrite !append_nil_l|].
  by rewrite !append_cons, IH.
Qed.

Lemma append_empty_inv (a b : string) : a +:+ b = EmptyString -> b = EmptyString.
Proof. destruct a; [by rewrite append_nil_l|by rewrite append_cons]. Qed.

Lemma prefix_refl (s : string) : String.prefix s s = true.
Proof.
  induction s as [|c s IH]; [done|]. simpl. by destruct (ascii_dec c c).
Qed.

Lemma Replace_from_skip_all (s old new : string) :
  Strings.Replace_from (String.length s) s old new = EmptyString.
Proof. induction s as [|c s IH]; [done|]. simpl. apply IH. Qed.

(** Removing [?query] from a text that is a base without [?] followed by
    [?query] leaves the base. *)
Lemma Replace_strips_query (base query : string) :
  Bytes.member "?" base = false ->
  Strings.Replace (base +:+ "?" +:+ query) ("?" +:+ query) EmptyString = base.
Proof.
  unfold Strings.Replace. induction base as [|c base IH]; intros Hbase.
  - rewrite append_nil_l.
    change ("?" +:+ query) with (String "?" query).
    cbn [Strings.Replace_from]. unfold Strings.HasPrefix.
    rewrite prefix_refl, append_nil_l.
    replace (String.length (String "?" query) - 1) with (String.length query)
      by (simpl; lia).
    apply Replace_from_skip_all.
  - cbn [Bytes.member] in Hbase.
    destruct (Ascii.eqb "?" c) eqn:Hc; [done|].
    rewrite append_cons.
    change ("?" +:+ query) with (String "?" query) in *.
    cbn [Strings.Replace_from]. unfold Strings.HasPrefix.
    cbn [String.prefix].
    destruct (ascii_dec "?" c) as [Heq|_];
      [rewrite <- Heq in Hc; by rewrite Ascii.eqb_refl in Hc|].
    by rewrite IH.
Qed.

(** The escaping of [net/url] is the URL encoding: byte by byte, for all
    256 bytes. *)
Lemma escape_byte_encoded (c : ascii) : Url.escape_byte c = Spec.encoded_byte c.
Proof. destruct c as [[] [] [] [] [] [] [] []]; reflexivity. Qed.

Lemma QueryEscape_url_encoded (s : string) : Url.QueryEscape s = Spec.url_encoded s.
Proof.
  induction s as [|c s IH]; [done|].
  cbn [Url.QueryEscape Spec.url_encoded]. by rewrite escape_byte_encoded, IH.
Qed.

Lemma pair_text_escape (k v : string) :
  Spec.pair_text k v = Url.QueryEscape k +:+ "=" +:+ Url.QueryEscape v.
Proof. unfold Spec.pair_text. by rewrite !QueryEscape_url_encoded. Qed.

Lemma prefix_append (p s : string) : String.prefix p (p +:+ s) = true.
Proof.
  induction p as [|c p IH]; [by destruct s|].
  rewrite append_cons. simpl. by destruct (ascii_dec c c).
Qed.

Lemma Replace_from_skip (a rest old new : string) :
  Strings.Replace_from (String.length a) (a +:+ rest) old new
  = Strings.Replace_from 0 rest old new.
Proof.
  induction a as [|c a IH]; [by rewrite append_nil_l|].
  rewrite append_cons. simpl. apply IH.
Qed.

(** A text without [?] holds no occurrence of [?query]. *)
Lemma Replace_from_no_match (s query new : string) :
  Bytes.member "?" s = false ->
  Strings.Replace_from 0 s (String "?" query) new = s.
Proof.
  induction s as [|c s IH]; intros Hs; [done|].
  cbn [Bytes.member] in Hs.
  destruct (Ascii.eqb "?" c) eqn:Hc; [done|].
  cbn [Strings.Replace_from]. unfold Strings.HasPrefix. cbn [String.prefix].
  destruct (ascii_dec "?" c) as [Heq|_];
    [rewrite <- Heq in Hc; by rewrite Ascii.eqb_refl in Hc|].
  by rewrite IH.
Qed.

(** Removing [?query] from a base without [?], [?query] and a rest without
    [?] leaves the base and the rest. *)
Lemma Replace_strips_query_before (base query rest : string) :
  Bytes.member "?" base = false ->
  Bytes.member "?" rest = false ->
  Strings.Replace (base +:+ "?" +:+ query +:+ rest) ("?" +:+ query) EmptyString
  = base +:+ rest.
Proof.
  unfold Strings.Replace. intros Hbase Hrest.
  change ("?" +:+ query) with (String "?" query).
  change ("?" +:+ query +:+ rest) with (String "?" (query +:+ rest)).
  induction base as [|c base IH].
  - rewrite !append_nil_l.
    cbn [Strings.Replace_from]. unfold Strings.HasPrefix. cbn [String.prefix].
    destruct (ascii_dec "?" "?") as [_|Hne]; [|done].
    rewrite prefix_append, append_nil_l.
    replace (String.length (String "?" query) - 1) with (String.length query)
      by (simpl; lia).
    rewrite Replace_from_skip. by apply Replace_from_no_match.
  - cbn [Bytes.member] in Hbase.
    destruct (Ascii.eqb "?" c) eqn:Hc; [done|].
    rewrite !append_cons.
    cbn [Strings.Replace_from]. unfold Strings.HasPrefix. cbn [String.prefix].
    destruct (ascii_dec "?" c) as [Heq|_];
      [rewrite <- Heq in Hc; by rewrite Ascii.eqb_refl in Hc|].
    by rewrite IH.
Qed.

Lemma member_append (x : ascii) (a b : string) :
  Bytes.member x (a +:+ b) = Bytes.member x a || Bytes.member x b.
Proof.
  induction a as [|c a IH]; [by rewrite append_nil_l|].
  rewrite append_cons. cbn [Bytes.member]. rewrite IH. by destruct (Ascii.eqb x c).
Qed.

Lemma pair_text_nonempty (k v : string) : Spec.pair_text k v <> EmptyString.
Proof. unfold Spec.pair_text. intros H. by apply append_empty_inv in H. Qed.

Lemma join_amp_nonempty (ps : list string) :
  ps <> [] -> Forall (fun p => p <> EmptyString) ps -> Spec.join_amp ps <> EmptyString.
Proof.
  destruct ps as [|p ps]; [done|]. intros _ Hall.
  apply Forall_cons in Hall as [Hp _].
  destruct ps as [|q ps]; [done|].
  change (Spec.join_amp (p :: q :: ps)) with (p +:+ "&" +:+ Spec.join_amp (q :: ps)).
  destruct p; [done|by rewrite append_cons].
Qed.

Lemma join_amp_snoc (ps : list string) (p : string) :
  ps <> [] -> Spec.join_amp (ps ++ [p]) = Spec.join_amp ps +:+ "&" +:+ p.
Proof.
  induction ps as [|q ps IH]; [done|]. intros _.
  destruct ps as [|r ps]; [done|].
  change (Spec.join_amp ((q :: r :: ps) ++ [p]))
    with (q +:+ "&" +:+ Spec.join_amp ((r :: ps) ++ [p])).
  rewrite IH by done.
  change (Spec.join_amp (q :: r :: ps)) with (q +:+ "&" +:+ Spec.join_amp (r :: ps)).
  by rewrite !append_assoc.
Qed.

(** ** [Values.Encode] writes the pairs in sorted key order *)

Lemma write_pair_join (acc : list string) (k x : string) :
  Forall (fun p => p <> EmptyString) acc ->
  Url.write_pair (Spec.join_amp acc) k x = Spec.join_amp (acc ++ [Spec.pair_text k x]).
Proof.
  intros Hall. unfold Url.write_pair. rewrite pair_text_escape.
  destruct acc as [|p acc].
  - change (Spec.join_amp []) with EmptyString.
    case_decide; [|done]. by rewrite append_nil_l.
  - rewrite join_amp_snoc by done.
    case_decide as Hempty.
    + by apply join_amp_nonempty in Hempty.
    + by rewrite !append_assoc.
Qed.

Lemma write_values_join (k : string) (xs : list string) (acc : list string) :
  Forall (fun p => p <> EmptyString) acc ->
  foldl (fun buf x => Url.write_pair buf k x) (Spec.join_amp acc) xs
  = Spec.join_amp (acc ++ map (Spec.pair_text k) xs).
Proof.
  revert acc. induction xs as [|x xs IH]; intros acc Hall; simpl.
  - by rewrite app_nil_r.
  - rewrite write_pair_join by done.
    rewrite IH.
    + by rewrite <- app_assoc.
    + apply Forall_app; split; [done|].
      apply Forall_singleton, pair_text_nonempty.
Qed.

Lemma write_keys_join (v : Url.Values) (keys : list string) (acc : list string) :
  Forall (fun p => p <> EmptyString) acc ->
  foldl (fun buf k => foldl (fun buf x => Url.write_pair buf k x) buf (v !!! k))
        (Spec.join_amp acc) keys
  = Spec.join_amp (acc ++ flat_map (fun k => map (Spec.pair_text k) (v !!! k)) keys).
Proof.
  revert acc. induction keys as [|k keys IH]; intros acc Hall; simpl.
  - by rewrite app_nil_r.
  - rewrite write_values_join by done.
    rewrite IH.
    + by rewrite <- app_assoc.
    + apply Forall_app; split; [done|].
      apply Forall_forall. intros p Hp.
      apply list_elem_of_fmap in Hp as (x & -> & _). apply pair_text_nonempty.
Qed.

Lemma Encode_query_encoding (v : Url.Values) :
  Url.Encode v = Spec.query_encoding (Url.sorted_keys v) v.
Proof. unfold Url.Encode. by rewrite (write_keys_join v _ []). Qed.

Lemma sorted_keys_sorted (v : Url.Values) : StronglySorted String.le (Url.sorted_keys v).
Proof. apply StronglySorted_merge_sort; apply _. Qed.

Lemma sorted_keys_perm (v : Url.Values) : Url.sorted_keys v ≡ₚ (map_to_list v).*1.
Proof. apply merge_sort_Permutation. Qed.

(** ** Headers *)

Lemma Get_Set_eq (h : HttpHeader.t) (key value : string) :
  HttpHeader.Get (HttpHeader.Set_ h key value) key = value.
Proof. unfold HttpHeader.Get, HttpHeader.Set_. by rewrite lookup_insert_eq. Qed.

Lemma Get_Set_ne (h : HttpHeader.t) (key key' value : string) :
  Textproto.CanonicalMIMEHeaderKey key <> Textproto.CanonicalMIMEHeaderKey key' ->
  HttpHeader.Get (HttpHeader.Set_ h key value) key' = HttpHeader.Get h key'.
Proof.
  intros Hne. unfold HttpHeader.Get, HttpHeader.Set_. by rewrite lookup_insert_ne.
Qed.

(** The header names the package sets are in canonical form already. *)
Lemma canonical_Content_Type :
  Textproto.CanonicalMIMEHeaderKey "Content-Type" = "Content-Type".
Proof. reflexivity. Qed.

Lemma canonical_User_Agent :
  Textproto.CanonicalMIMEHeaderKey "User-Agent" = "User-Agent".
Proof. reflexivity. Qed.

Lemma canonical_Authorization :
  Textproto.CanonicalMIMEHeaderKey "Authorization" = "Authorization".
Proof. reflexivity. Qed.

Lemma canonical_X_Requested_With :
  Textproto.CanonicalMIMEHeaderKey "X-Requested-With" = "X-Requested-With".
Proof. reflexivity. Qed.

Create Rewrite HintDb canonical.
#[export] Hint Rewrite canonical_Content_Type canonical_User_Agent
  canonical_Authorization canonical_X_Requested_With : canonical.

Lemma Set_Content_Type_empty (value : string) :
  HttpHeader.Set_ ∅ "Content-Type" value = {[ "Content-Type" := [value] ]}.
Proof.
  unfold HttpHeader.Set_. autorewrite with canonical. apply insert_empty.
Qed.

(** ** [http.NewRequest] *)

(** Case analysis on the call of [http.NewRequest] in the goal; the failing
    case is closed when it is immediate. *)
Ltac new_request :=
  unfold http_NewRequest;
  destruct (http_NewRequest_parse _ _) as [[? ?]|?]; [|try done].

Lemma http_NewRequest_Ok `{E : Env} (method url : string) (body : io_Reader)
    (req : Request) :
  http_NewRequest method url body = Ok req -> Header req = ∅ /\ Body req = body.
Proof. new_request. by intros [= <-]. Qed.

(** ** Overlaying entries with [Values.Set] *)

Lemma overlay_cons (q : Url.Values) (k v : string) (l : list (string * string)) :
  overlay q ((k, v) :: l) = overlay (Url.Set_ q k v) l.
Proof. reflexivity. Qed.

Lemma overlay_lookup_notin (l : list (string * string)) (q : Url.Values) (k : string) :
  k ∉ l.*1 -> overlay q l !! k = q !! k.
Proof.
  revert q. induction l as [|[k' v'] l IH]; intros q Hk; [done|].
  rewrite fmap_cons in Hk. apply not_elem_of_cons in Hk as [Hne Hk].
  rewrite overlay_cons, IH by done.
  unfold Url.Set_. by apply lookup_insert_ne.
Qed.

Lemma overlay_lookup_in (l : list (string * string)) (q : Url.Values) (k v : string) :
  NoDup l.*1 -> (k, v) ∈ l -> overlay q l !! k = Some [v].
Proof.
  revert q. induction l as [|[k' v'] l IH]; intros q Hnd Hin.
  - by apply not_elem_of_nil in Hin.
  - rewrite fmap_cons in Hnd. apply NoDup_cons in Hnd as [Hk' Hnd].
    rewrite overlay_cons.
    apply elem_of_cons in Hin as [Heq|Hin].
    + injection Heq as -> ->.
      rewrite overlay_lookup_notin by done.
      unfold Url.Set_. apply lookup_insert_eq.
    + by apply IH.
Qed.

(** ** Map iteration *)

Lemma map_range_perm `{E : Env} (m : gmap string string) : map_range m ≡ₚ map_to_list m.
Proof. unfold map_range. by case_decide. Qed.

Lemma map_range_empty `{E : Env} : map_range ∅ = [].
Proof.
  apply Permutation_nil_r. by rewrite map_range_perm, map_to_list_empty.
Qed.

Lemma map_range_NoDup `{E : Env} (m : gmap string string) : NoDup (map_range m).*1.
Proof. rewrite map_range_perm. apply NoDup_fst_map_to_list. Qed.

Lemma elem_of_map_range `{E : Env} (m : gmap string string) (k v : string) :
  (k, v) ∈ map_range m <-> m !! k = Some v.
Proof. rewrite map_range_perm. apply elem_of_map_to_list. Qed.

(** Whatever the iteration order, the overlay loop leaves the entries of
    [m], each with its one value, over the entries of [q]. *)
Lemma overlay_map_range `{E : Env} (q : Url.Values) (m : gmap string string) :
  overlay q (map_range m) = ((fun v => [v]) <$> m) ∪ q.
Proof.
  apply map_eq. intros k.
  rewrite lookup_union, lookup_fmap.
  destruct (m !! k) as [v|] eqn:Hk; simpl.
  - rewrite (overlay_lookup_in _ _ k v).
    + by destruct (q !! k).
    + apply map_range_NoDup.
    + by apply elem_of_map_range.
  - rewrite overlay_lookup_notin.
    + by destruct (q !! k).
    + intros Hin. apply list_elem_of_fmap in Hin as ([k' v'] & -> & Hin).
      apply elem_of_map_range in Hin. simpl in Hk. congruence.
Qed.

Lemma encodePostValues_Encode `{E : Env} (data : gmap string string) :
  encodePostValues (Some data) = Url.Encode ((fun v => [v]) <$> data).
Proof.
  unfold encodePostValues, entries. simpl.
  change (foldl _ ∅ (map_range data)) with (overlay ∅ (map_range data)).
  rewrite overlay_map_range. by rewrite (right_id_L ∅ (∪)).
Qed.

(** ** Reading back what the query encoder writes *)

Lemma escape_shape_all (c : ascii) : escape_shape c = true.
Proof. destruct c as [[] [] [] [] [] [] [] []]; reflexivity. Qed.

Lemma escape_clean_all (c : ascii) : escape_clean c = true.
Proof. destruct c as [[] [] [] [] [] [] [] []]; reflexivity. Qed.

Lemma QueryUnescape_plain (d : ascii) (s t : string) :
  Ascii.eqb d "%" = false ->
  Url.QueryUnescape s = Ok t ->
  Url.QueryUnescape (String d s) = Ok (String (if Ascii.eqb d "+" then " "%char else d) t).
Proof. intros Hd Hs. cbn [Url.QueryUnescape]. by rewrite Hd, Hs. Qed.

Lemma QueryUnescape_hex (h1 h2 : ascii) (s t : string) :
  Bytes.is_hex h1 = true -> Bytes.is_hex h2 = true ->
  Url.QueryUnescape s = Ok t ->
  Url.QueryUnescape (String "%" (String h1 (String h2 s)))
  = Ok (String (ascii_of_nat (Bytes.unhex h1 * 16 + Bytes.unhex h2)) t).
Proof. intros H1 H2 Hs. cbn [Url.QueryUnescape]. by rewrite Ascii.eqb_refl, H1, H2, Hs. Qed.

Lemma unescape_escape_byte (c : ascii) (s t : string) :
  Url.QueryUnescape s = Ok t ->
  Url.QueryUnescape (Url.escape_byte c +:+ s) = Ok (String c t).
Proof.
  intros Hs. pose proof (escape_shape_all c) as Hshape. unfold escape_shape in Hshape.
  destruct (Url.escape_byte c) as [|d [|h1 [|h2 [|? ?]]]]; try done.
  - apply andb_true_iff in Hshape as [Hd Hc]. apply negb_true_iff in Hd.
    rewrite append_cons, append_nil_l, (QueryUnescape_plain d s t) by done.
    destruct (Ascii.eqb d "+"); apply Ascii.eqb_eq in Hc; by subst.
  - apply andb_true_iff in Hshape as [Hshape Hc].
    apply andb_true_iff in Hshape as [Hshape H2].
    apply andb_true_iff in Hshape as [Hp H1].
    apply Ascii.eqb_eq in Hp, Hc. subst d.
    rewrite !append_cons, append_nil_l, (QueryUnescape_hex h1 h2 s t) by done.
    by rewrite Hc.
Qed.

(** [QueryUnescape] undoes [QueryEscape], for every string of bytes. *)
Lemma QueryUnescape_QueryEscape (s : string) :
  Url.QueryUnescape (Url.QueryEscape s) = Ok s.
Proof.
  induction s as [|c s IH]; [done|].
  cbn [Url.QueryEscape]. by apply unescape_escape_byte.
Qed.

Lemma QueryEscape_clean (s : string) :
  Bytes.member "&" (Url.QueryEscape s) = false /\
  Bytes.member ";" (Url.QueryEscape s) = false /\
  Bytes.member "=" (Url.QueryEscape s) = false.
Proof.
  induction s as [|c s (IH1 & IH2 & IH3)]; [done|].
  cbn [Url.QueryEscape]. rewrite !member_append, IH1, IH2, IH3, !orb_false_r.
  pose proof (escape_clean_all c) as Hc. unfold escape_clean in Hc.
  apply andb_true_iff in Hc as [Hc H3]. apply andb_true_iff in Hc as [H1 H2].
  by rewrite !negb_true_iff in H1, H2, H3.
Qed.

(** ** Cutting and splitting joined text *)

Lemma Cut_append (a b : string) (sep : ascii) :
  Bytes.member sep a = false ->
  Strings.Cut (a +:+ String sep b) sep = (a, b, true).
Proof.
  induction a as [|c a IH]; intros Ha.
  - rewrite append_nil_l. cbn [Strings.Cut]. by rewrite Ascii.eqb_refl.
  - cbn [Bytes.member] in Ha. rewrite append_cons. cbn [Strings.Cut].
    rewrite Ascii.eqb_sym. destruct (Ascii.eqb sep c); [done|].
    by rewrite IH.
Qed.

Lemma Split_single (a : string) (sep : ascii) :
  Bytes.member sep a = false -> Strings.Split a sep = [a].
Proof.
  induction a as [|c a IH]; intros Ha; [done|].
  cbn [Bytes.member] in Ha. cbn [Strings.Split].
  rewrite Ascii.eqb_sym. destruct (Ascii.eqb sep c); [done|].
  by rewrite IH.
Qed.

Lemma Split_append (a b : string) (sep : ascii) :
  Bytes.member sep a = false ->
  Strings.Split (a +:+ String sep b) sep = a :: Strings.Split b sep.
Proof.
  induction a as [|c a IH]; intros Ha.
  - rewrite append_nil_l. cbn [Strings.Split]. by rewrite Ascii.eqb_refl.
  - cbn [Bytes.member] in Ha. rewrite append_cons. cbn [Strings.Split].
    rewrite Ascii.eqb_sym. destruct (Ascii.eqb sep c); [done|].
    by rewrite IH.
Qed.

Lemma Split_join_amp (ps : list string) :
  ps <> [] ->
  Forall (fun p => Bytes.member "&" p = false) ps ->
  Strings.Split (Spec.join_amp ps) "&" = ps.
Proof.
  induction ps as [|p ps IH]; [done|]. intros _ Hall.
  apply Forall_cons in Hall as [Hp Hall].
  destruct ps as [|q ps].
  - by apply Split_single.
  - change (Spec.join_amp (p :: q :: ps)) with (p +:+ "&" +:+ Spec.join_amp (q :: ps)).
    change ("&" +:+ Spec.join_amp (q :: ps)) with (String "&" (Spec.join_amp (q :: ps))).
    rewrite Split_append by done. by rewrite IH.
Qed.

(** ** Parsing the pairs that [Encode] writes *)

Lemma pair_text_clean (k x : string) :
  Bytes.member "&" (Spec.pair_text k x) = false /\
  Bytes.member ";" (Spec.pair_text k x) = false.
Proof.
  rewrite pair_text_escape, !member_append.
  destruct (QueryEscape_clean k) as (-> & -> & _).
  destruct (QueryEscape_clean x) as (-> & -> & _). done.
Qed.

Lemma parseQuery_step_pair (m : Url.Values) (err : option error) (k x : string) :
  Url.parseQuery_step (m, err) (Spec.pair_text k x)
  = (<[k := (m !!! k ++ [x])%list]> m, err).
Proof.
  unfold Url.parseQuery_step.
  destruct (pair_text_clean k x) as [_ ->].
  rewrite decide_False by apply pair_text_nonempty.
  rewrite pair_text_escape.
  change ("=" +:+ Url.QueryEscape x) with (String "=" (Url.QueryEscape x)).
  rewrite Cut_append by apply QueryEscape_clean.
  by rewrite !QueryUnescape_QueryEscape.
Qed.

Lemma parse_values (k : string) (xs : list string) (m : Url.Values) (err : option error) :
  xs <> [] ->
  foldl Url.parseQuery_step (m, err) (map (Spec.pair_text k) xs)
  = (<[k := (m !!! k ++ xs)%list]> m, err).
Proof.
  revert m. induction xs as [|x xs IH]; [done|]. intros m _.
  cbn [map foldl]. rewrite parseQuery_step_pair.
  destruct xs as [|y xs]; [done|].
  rewrite IH by done.
  by rewrite lookup_total_insert_eq, insert_insert_eq, <- app_assoc.
Qed.

Lemma parse_keys (v : Url.Values) (keys : list string) (m : Url.Values)
    (err : option error) :
  NoDup keys ->
  (forall k, k ∈ keys -> m !! k = None) ->
  exists m',
    foldl Url.parseQuery_step (m, err)
      (flat_map (fun k => map (Spec.pair_text k) (v !!! k)) keys) = (m', err) /\
    forall k, m' !! k = if decide (k ∈ keys /\ v !!! k <> []) then Some (v !!! k)
                        else m !! k.
Proof.
  revert m. induction keys as [|k0 keys IH]; intros m Hnd Hfresh.
  - exists m. split; [done|]. intros k. rewrite decide_False; [done|].
    intros [Hk _]. by apply not_elem_of_nil in Hk.
  - apply NoDup_cons in Hnd as [Hk0 Hnd].
    cbn [flat_map]. rewrite foldl_app.
    assert (Hm0 : m !!! k0 = []).
    { rewrite lookup_total_alt, Hfresh; [done|]. apply elem_of_cons. by left. }
    destruct (decide (v !!! k0 = [])) as [Hempty|Hfull].
    + rewrite Hempty. cbn [map foldl].
      destruct (IH m Hnd) as (m' & Hrun & Hlook).
      { intros k Hk. apply Hfresh, elem_of_cons. by right. }
      exists m'. split; [done|]. intros k. rewrite Hlook.
      destruct (decide (k ∈ keys /\ v !!! k <> [])) as [[Hin Hv]|Hn].
      * rewrite decide_True; [done|]. split; [|done]. apply elem_of_cons. by right.
      * rewrite decide_False; [done|]. intros [Hin Hv]. apply Hn. split; [|done].
        apply elem_of_cons in Hin as [->|Hin]; done.
    + rewrite parse_values, Hm0 by done. rewrite app_nil_l.
      destruct (IH (<[k0 := v !!! k0]> m) Hnd) as (m' & Hrun & Hlook).
      { intros k Hk. rewrite lookup_insert_ne by (intros ->; done).
        apply Hfresh, elem_of_cons. by right. }
      exists m'. split; [done|]. intros k. rewrite Hlook.
      destruct (decide (k ∈ keys /\ v !!! k <> [])) as [[Hin Hv]|Hn].
      * rewrite decide_True; [done|]. split; [|done]. apply elem_of_cons. by right.
      * destruct (decide (k = k0)) as [->|Hne].
        -- rewrite lookup_insert_eq, decide_True; [done|]. split; [|done].
           apply elem_of_cons. by left.
        -- rewrite lookup_insert_ne by done.
           rewrite decide_False; [done|]. intros [Hin Hv]. apply Hn. split; [|done].
           apply elem_of_cons in Hin as [->|Hin]; done.
Qed.

Lemma sorted_keys_NoDup (v : Url.Values) : NoDup (Url.sorted_keys v).
Proof. rewrite sorted_keys_perm. apply NoDup_fst_map_to_list. Qed.

Lemma elem_of_sorted_keys (v : Url.Values) (k : string) :
  k ∈ Url.sorted_keys v <-> is_Some (v !! k).
Proof.
  rewrite sorted_keys_perm, list_elem_of_fmap. split.
  - intros ([k' l] & -> & Hin). apply elem_of_map_to_list in Hin. by exists l.
  - intros [l Hl]. exists (k, l). split; [done|]. by apply elem_of_map_to_list.
Qed.

(** ** Counting the parameters of a query *)

Lemma Count_none (a : string) (sep : ascii) :
  Bytes.member sep a = false -> Strings.Count a sep = 0.
Proof.
  induction a as [|c a IH]; intros Ha; [done|].
  cbn [Bytes.member] in Ha. cbn [Strings.Count].
  rewrite Ascii.eqb_sym. destruct (Ascii.eqb sep c); [done|].
  by rewrite IH.
Qed.

Lemma Count_append (a b : string) (sep : ascii) :
  Strings.Count (a +:+ b) sep = Strings.Count a sep + Strings.Count b sep.
Proof.
  induction a as [|c a IH]; [by rewrite append_nil_l|].
  rewrite append_cons. cbn [Strings.Count]. rewrite IH. lia.
Qed.

(** Pairs without [&], joined by [&], hold one [&] less than pairs. *)
Lemma Count_join_amp (ps : list string) :
  Forall (fun p => Bytes.member "&" p = false) ps ->
  Strings.Count (Spec.join_amp ps) "&" = length ps - 1.
Proof.
  induction ps as [|p ps IH]; [done|]. intros Hall.
  apply Forall_cons in Hall as [Hp Hall].
  destruct ps as [|q ps]; [by apply Count_none|].
  change (Spec.join_amp (p :: q :: ps)) with (p +:+ "&" +:+ Spec.join_amp (q :: ps)).
  rewrite !Count_append, IH, Count_none by done.
  cbn [Strings.Count length]. rewrite Ascii.eqb_refl. lia.
Qed.

Lemma within_join_amp (ps : list string) :
  Forall (fun p => Bytes.member "&" p = false) ps ->
  Url.urlParamsWithinMax (Strings.Count (Spec.join_amp ps) "&" + 1)
  = Url.urlParamsWithinMax (length ps).
Proof.
  intros Hall. rewrite Count_join_amp by done.
  destruct ps as [|p ps]; [reflexivity|].
  cbn [length]. f_equal. lia.
Qed.

Lemma urlParamsWithinMax_le (n : nat) :
  Url.urlParamsWithinMax n = true <-> (N.of_nat n <= Url.defaultMaxParams)%N.
Proof. unfold Url.urlParamsWithinMax. apply N.leb_le. Qed.

Lemma urlParamsWithinMax_gt (n : nat) :
  Url.urlParamsWithinMax n = false <-> (Url.defaultMaxParams < N.of_nat n)%N.
Proof. unfold Url.urlParamsWithinMax. apply N.leb_gt. Qed.

Lemma length_flat_map {A B} (F : A -> list B) (l : list A) :
  length (flat_map F l) = sum_list ((fun a => length (F a)) <$> l).
Proof.
  induction l as [|a l IH]; [done|].
  cbn [flat_map]. rewrite length_app, IH. done.
Qed.

(** [Encode] writes as many pairs as the values hold. *)
Lemma length_query_pairs (v : Url.Values) :
  length (flat_map (fun k => map (Spec.pair_text k) (v !!! k)) (Url.sorted_keys v))
  = pair_count v.
Proof.
  rewrite length_flat_map. unfold pair_count.
  rewrite sorted_keys_perm, <- !list_fmap_compose.
  f_equal. apply list_fmap_ext. intros i [k l] Hi. simpl.
  apply list_elem_of_lookup_2, elem_of_map_to_list in Hi.
  by rewrite length_map, lookup_total_alt, Hi.
Qed.

Lemma pair_count_singletons (data : gmap string string) :
  pair_count ((fun v => [v]) <$> data) = size data.
Proof.
  unfold pair_count. rewrite map_to_list_fmap, <- !list_fmap_compose.
  rewrite (sum_list_fmap_same 1); [|by apply Forall_true].
  rewrite length_map_to_list. lia.
Qed.

Lemma ParseQuery_join_amp (ps : list string) :
  Forall (fun p => Bytes.member "&" p = false) ps ->
  Forall (fun p => p <> EmptyString) ps ->
  Url.ParseQuery (Spec.join_amp ps)
  = if Url.urlParamsWithinMax (length ps)
    then foldl Url.parseQuery_step (∅, None) ps
    else (∅, Some ErrQueryParamsLimit).
Proof.
  intros Hamp Hne. unfold Url.ParseQuery.
  rewrite within_join_amp by done.
  destruct (Url.urlParamsWithinMax (length ps)); [|done].
  destruct ps as [|p ps]; [done|].
  by rewrite Split_join_amp.
Qed.

(** Parsing what [Encode] writes for values without an empty list gives the
    values back, with no error, when they hold no more pairs than the parser
    accepts; the parser refuses more. *)
Lemma ParseQuery_Encode (v : Url.Values) :
  no_empty_values v ->
  Url.ParseQuery (Url.Encode v)
  = if Url.urlParamsWithinMax (pair_count v) then (v, None)
    else (∅, Some ErrQueryParamsLimit).
Proof.
  intros Hv. rewrite Encode_query_encoding. unfold Spec.query_encoding.
  rewrite ParseQuery_join_amp, length_query_pairs.
  - destruct (Url.urlParamsWithinMax (pair_count v)); [|done].
    destruct (parse_keys v (Url.sorted_keys v) ∅ None) as (m' & -> & Hlook).
    { apply sorted_keys_NoDup. }
    { intros k _. apply lookup_empty. }
    f_equal. apply map_eq. intros k. rewrite Hlook.
    destruct (v !! k) as [l|] eqn:Hk.
    + rewrite decide_True; [by rewrite lookup_total_alt, Hk|].
      split; [apply elem_of_sorted_keys; by exists l|].
      rewrite lookup_total_alt, Hk. simpl. intros ->. by apply (Hv k).
    + rewrite decide_False; [apply lookup_empty|].
      intros [Hin _]. apply elem_of_sorted_keys in Hin as [l Hl]. congruence.
  - apply Forall_forall. intros p Hp.
    apply list_elem_of_In, in_flat_map in Hp as (k & _ & Hp).
    apply in_map_iff in Hp as (x & <- & _).
    apply pair_text_clean.
  - apply Forall_forall. intros p Hp.
    apply list_elem_of_In, in_flat_map in Hp as (k & _ & Hp).
    apply in_map_iff in Hp as (x & <- & _).
    apply pair_text_nonempty.
Qed.

Lemma parseQuery_step_no_empty (st : Url.Values * option error) (seg : string) :
  no_empty_values st.1 -> no_empty_values (Url.parseQuery_step st seg).1.
Proof.
  destruct st as [m err]. unfold Url.parseQuery_step. simpl. intros Hm.
  destruct (Bytes.member ";" seg); [done|].
  case_decide; [done|].
  destruct (Strings.Cut seg "=") as [[key value] found].
  destruct (Url.QueryUnescape key) as [key'|e]; [|done].
  destruct (Url.QueryUnescape value) as [value'|e]; [|done].
  intros k. simpl. destruct (decide (k = key')) as [->|Hne].
  - rewrite lookup_insert_eq. intros [= Hnil]. by apply app_eq_nil in Hnil as [_ ?].
  - rewrite lookup_insert_ne by done. apply Hm.
Qed.

Lemma ParseQuery_no_empty (query : string) : no_empty_values (Url.ParseQuery query).1.
Proof.
  unfold Url.ParseQuery.
  assert (H : forall segs st, no_empty_values st.1 ->
            no_empty_values (foldl Url.parseQuery_step st segs).1).
  { induction segs as [|seg segs IH]; intros st Hst; [done|].
    simpl. by apply IH, parseQuery_step_no_empty. }
  destruct (Url.urlParamsWithinMax _).
  - apply H. intros k. simpl. by rewrite lookup_empty.
  - intros k. simpl. by rewrite lookup_empty.
Qed.

(** ** Parsing a query of well-formed pairs *)

Lemma parse_pairs (pairs : list (string * string)) (m : Url.Values)
    (err : option error) :
  exists m',
    foldl Url.parseQuery_step (m, err)
      (map (fun kv => Spec.pair_text kv.1 kv.2) pairs) = (m', err) /\
    forall k, m' !!! k = (m !!! k ++ Spec.values_of k pairs)%list.
Proof.
  revert m. induction pairs as [|[k0 x0] pairs IH]; intros m.
  - exists m. split; [done|]. intros k. by rewrite app_nil_r.
  - cbn [map foldl fst snd]. rewrite parseQuery_step_pair.
    destruct (IH (<[k0 := (m !!! k0 ++ [x0])%list]> m)) as (m' & Hrun & Hlook).
    exists m'. split; [done|]. intros k. rewrite Hlook.
    unfold Spec.values_of. rewrite filter_cons. simpl.
    destruct (decide (k0 = k)) as [->|Hne].
    + by rewrite lookup_total_insert_eq, fmap_cons, <- app_assoc.
    + by rewrite lookup_total_insert_ne.
Qed.

(** A query that is the URL-encoded form of a list of pairs parses to those
    pairs, each key with its values in their order, unless they are more
    than the parser accepts. *)
Lemma ParseQuery_form_encoding (pairs : list (string * string)) :
  exists m',
    Url.ParseQuery (Spec.form_encoding pairs)
    = (if Url.urlParamsWithinMax (length pairs) then (m', None)
       else (∅, Some ErrQueryParamsLimit)) /\
    forall k, m' !!! k = Spec.values_of k pairs.
Proof.
  destruct (parse_pairs pairs ∅ None) as (m' & Hrun & Hlook).
  exists m'. split.
  - unfold Spec.form_encoding.
    rewrite ParseQuery_join_amp, length_map, Hrun; [done| |].
    + apply Forall_forall. intros p Hp.
      apply list_elem_of_In, in_map_iff in Hp as ([k x] & <- & _).
      apply pair_text_clean.
    + apply Forall_forall. intros p Hp.
      apply list_elem_of_In, in_map_iff in Hp as ([k x] & <- & _).
      apply pair_text_nonempty.
  - intros k. rewrite Hlook. by rewrite lookup_total_empty.
Qed.

(** ** The form body (C7) *)

Lemma keys_of_singletons (data : gmap string string) :
  Url.sorted_keys ((fun v => [v]) <$> data) ≡ₚ (map_to_list data).*1.
Proof.
  rewrite sorted_keys_perm, map_to_list_fmap, <- list_fmap_compose.
  by apply Permutation_refl'.
Qed.

Lemma entries_of_keys (data : gmap string string) (l : list (string * string)) :
  (forall k v, (k, v) ∈ l -> data !! k = Some v) ->
  (fun k => (k, data !!! k)) <$> l.*1 = l.
Proof.
  induction l as [|[k v] l IH]; intros Hl; [done|].
  rewrite !fmap_cons, IH.
  - simpl. rewrite lookup_total_alt, (Hl k v); [done|]. apply elem_of_cons. by left.
  - intros k' v' Hin. apply Hl. apply elem_of_cons. by right.
Qed.

Lemma flat_map_singletons {A B} (F : A -> list B) (G : A -> B) (l : list A) :
  (forall a, a ∈ l -> F a = [G a]) -> flat_map F l = G <$> l.
Proof.
  induction l as [|a l IH]; intros Hl; [done|].
  simpl. rewrite (Hl a) by (apply elem_of_cons; by left).
  rewrite IH; [done|]. intros b Hb. apply Hl. apply elem_of_cons. by right.
Qed.

(** C7: for every Data map the form body is the URL-encoded serialization
    of its entries taken in lexicographic key order, the same whatever
    order the map is iterated in (and so the same in every environment);
    Data = {b: 2, a: 1} serializes as a=1&b=2; and a request built by
    [createBasicRequest] carries that body under the content type
    application/x-www-form-urlencoded.  URL-encoded means: an unreserved
    byte stands for itself, a space is [+], any other byte is [%] and two
    hexadecimal digits.  The request is built whenever [http.NewRequest]
    succeeds, and the only error is that of [http.NewRequest]. *)
Theorem encodePostValues_sorted_form `{E : Env} (data : gmap string string) :
  (exists pairs : list (string * string),
      pairs ≡ₚ map_to_list data /\
      StronglySorted String.le pairs.*1 /\
      encodePostValues (Some data) = Spec.form_encoding pairs) /\
  (forall E' : Env,
      @encodePostValues E' (Some data) = @encodePostValues E (Some data)) /\
  encodePostValues (Some {[ "b" := "2"; "a" := "1" ]}) = "a=1&b=2" /\
  (forall httpMethod userURL ro req,
      createBasicRequest httpMethod userURL ro = Ret req ->
      Body req = strings_Reader (encodePostValues (Data ro)) /\
      Header req = {[ "Content-Type" := ["application/x-www-form-urlencoded"] ]} /\
      HttpHeader.Get (Header req) "Content-Type" = "application/x-www-form-urlencoded") /\
  (forall httpMethod userURL ro m u,
      http_NewRequest_parse httpMethod userURL = Ok (m, u) ->
      createBasicRequest httpMethod userURL ro
        = Ret {| Method := m; URL := u;
                 Header := {[ "Content-Type" := ["application/x-www-form-urlencoded"] ]};
                 Body := strings_Reader (encodePostValues (Data ro)) |}) /\
  (forall httpMethod userURL ro err,
      http_NewRequest_parse httpMethod userURL = Err err ->
      createBasicRequest httpMethod userURL ro = Fail err) /\
  (forall httpMethod userURL ro m u,
      JSON ro = None -> XML ro = None -> File ro = None -> Data ro = Some data ->
      http_NewRequest_parse httpMethod userURL = Ok (m, u) ->
      buildHTTPRequest httpMethod userURL ro
        = ([], Ret {| Method := m; URL := u;
                      Header := {[ "Content-Type" :=
                                     ["application/x-www-form-urlencoded"] ]};
                      Body := strings_Reader (encodePostValues (Some data)) |})) /\
  encodePostValues (Some {[ "q" := "a&b=c d"; "path" := "/x~y?z"; "50%" := "+1" ]})
    = "50%25=%2B1&path=%2Fx~y%3Fz&q=a%26b%3Dc+d".
Proof.
  split; [|split; [|split; [|split; [|split; [|split; [|split]]]]]].
  - set (V := (fun v => [v]) <$> data).
    exists ((fun k => (k, data !!! k)) <$> Url.sorted_keys V).
    assert (Hkeys : (fun k => (k, data !!! k)) <$> Url.sorted_keys V
                     ≡ₚ map_to_list data).
    { unfold V. rewrite keys_of_singletons.
      apply Permutation_refl', entries_of_keys.
      intros k v. apply elem_of_map_to_list. }
    split; [done|]. split.
    + rewrite <- list_fmap_compose.
      replace ((fst ∘ (fun k => (k, data !!! k))) <$> Url.sorted_keys V)
        with (Url.sorted_keys V); [apply sorted_keys_sorted|].
      by rewrite <- (list_fmap_id (Url.sorted_keys V)) at 1.
    + rewrite encodePostValues_Encode, Encode_query_encoding. fold V.
      unfold Spec.query_encoding, Spec.form_encoding. f_equal.
      rewrite <- list_fmap_compose.
      apply flat_map_singletons. intros k Hk.
      assert (Hdom : is_Some (data !! k)).
      { unfold V in Hk. rewrite keys_of_singletons in Hk.
        apply list_elem_of_fmap in Hk as ([k' v'] & -> & Hk).
        apply elem_of_map_to_list in Hk. by exists v'. }
      destruct Hdom as [v Hv]. simpl.
      unfold V. rewrite !lookup_total_alt, lookup_fmap, Hv. done.
  - intros E'. by rewrite (@encodePostValues_Encode E'), (@encodePostValues_Encode E).
  - rewrite encodePostValues_Encode. by vm_compute.
  - intros httpMethod userURL ro req. unfold createBasicRequest. new_request.
    intros [= <-]. unfold Header_Set, set_Header. simpl.
    split; [done|]. split; [apply Set_Content_Type_empty|apply Get_Set_eq].
  - intros httpMethod userURL ro m u Hnew.
    unfold createBasicRequest, http_NewRequest. rewrite Hnew.
    unfold Header_Set, set_Header. simpl. by rewrite Set_Content_Type_empty.
  - intros httpMethod userURL ro err Hnew.
    unfold createBasicRequest, http_NewRequest. by rewrite Hnew.
  - intros httpMethod userURL ro m u Hj Hx Hf Hd Hnew.
    unfold buildHTTPRequest. rewrite Hj, Hx, Hf, Hd.
    rewrite !decide_False by apply is_Some_None.
    rewrite decide_True by done.
    unfold createBasicRequest, http_NewRequest. rewrite Hnew, Hd.
    unfold Header_Set, set_Header, pure. simpl.
    by rewrite Set_Content_Type_empty.
  - rewrite encodePostValues_Encode. by vm_compute.
Qed.

(** The URL-encoded form is fixed without reference to the encoder of
    [net/url]: the bytes of a key and a value, evaluated. *)
Example url_encoded_sample :
  Spec.url_encoded "a&b=c d" = "a%26b%3Dc+d" /\
  Spec.url_encoded "/x~y?z" = "%2Fx~y%3Fz" /\
  Spec.url_encoded "Az09-_.~" = "Az09-_.~" /\
  Spec.form_encoding [("50%", "+1"); ("q", "a&b=c d")] = "50%25=%2B1&q=a%26b%3Dc+d".
Proof. repeat split; by vm_compute. Qed.

(** ** Merging query parameters (C6) *)

(** C6: when the URL parses, the rewritten URL is the URL's text with every
    occurrence of [?] followed by its raw query removed, then [?], then the
    merged query: every key of Params carries exactly its Params value,
    every other key keeps the values the parser gave it for the existing
    query, and the pairs are serialized in URL-encoded form with the keys in
    sorted order, each key once.  When the existing query is the URL-encoded
    form of a list of pairs, every key that is not in Params keeps its
    values of that list, in their order, as long as the list has at most
    10000 pairs; a longer query is refused by the parser, whose error the
    code does not read, and every existing parameter is lost.  For a URL
    whose text is a base without [?] followed by [?] and the raw query, the
    result is that base, [?] and the merged query.  For a URL whose text
    goes on with [#] and a fragment, the result is the base, [#], the
    fragment, and only then [?] and the merged query: the parameters are
    attached to the fragment, and the rewritten URL has no query. *)
Theorem buildURLParams_overlay `{E : Env} (userURL : string)
    (params : gmap string string) (parsedURL : url_URL) :
  url_Parse userURL = Ok parsedURL ->
  exists (merged : Url.Values) (keys : list string),
    (forall k v, params !! k = Some v -> merged !! k = Some [v]) /\
    (forall k, params !! k = None ->
       merged !! k = (Url.ParseQuery (URL_RawQuery parsedURL)).1 !! k) /\
    keys ≡ₚ (map_to_list merged).*1 /\
    StronglySorted String.le keys /\
    buildURLParams userURL params =
      Ok (Strings.Replace (URL_String parsedURL)
            ("?" +:+ URL_RawQuery parsedURL) EmptyString
          +:+ "?" +:+ Spec.query_encoding keys merged) /\
    (forall base,
       URL_String parsedURL = base +:+ "?" +:+ URL_RawQuery parsedURL ->
       Bytes.member "?" base = false ->
       buildURLParams userURL params =
         Ok (base +:+ "?" +:+ Spec.query_encoding keys merged)) /\
    (forall existing : list (string * string),
       URL_RawQuery parsedURL = Spec.form_encoding existing ->
       ((N.of_nat (length existing) <= Url.defaultMaxParams)%N ->
          forall k, params !! k = None -> merged !!! k = Spec.values_of k existing) /\
       ((Url.defaultMaxParams < N.of_nat (length existing))%N ->
          forall k, params !! k = None -> merged !! k = None)) /\
    (forall base fragment,
       URL_String parsedURL
         = base +:+ "?" +:+ URL_RawQuery parsedURL +:+ "#" +:+ fragment ->
       Bytes.member "?" base = false ->
       Bytes.member "?" fragment = false ->
       buildURLParams userURL params =
         Ok (base +:+ "#" +:+ fragment +:+ "?" +:+ Spec.query_encoding keys merged)).
Proof.
  intros Hparse. unfold buildURLParams. rewrite Hparse.
  destruct (Url.ParseQuery (URL_RawQuery parsedURL)) as [parsed err] eqn:Hparsed.
  simpl. rewrite overlay_map_range.
  set (merged := ((fun v => [v]) <$> params) ∪ parsed).
  assert (Hkeep : forall k, params !! k = None -> merged !! k = parsed !! k).
  { intros k Hk. unfold merged. apply lookup_union_r. by rewrite lookup_fmap, Hk. }
  exists merged, (Url.sorted_keys merged).
  split; [|split; [|split; [|split; [|split; [|split; [|split]]]]]].
  - intros k v Hk. unfold merged.
    apply lookup_union_Some_l. by rewrite lookup_fmap, Hk.
  - exact Hkeep.
  - apply sorted_keys_perm.
  - apply sorted_keys_sorted.
  - unfold Strings.Join2. by rewrite Encode_query_encoding.
  - intros base Htext Hbase. unfold Strings.Join2.
    by rewrite Htext, Replace_strips_query, Encode_query_encoding.
  - intros existing Hraw.
    destruct (ParseQuery_form_encoding existing) as (m' & Hrun & Hlook).
    rewrite <- Hraw, Hparsed in Hrun. split.
    + intros Hle k Hk. apply urlParamsWithinMax_le in Hle.
      rewrite Hle in Hrun. injection Hrun as -> _.
      by rewrite lookup_total_alt, Hkeep, <- lookup_total_alt.
    + intros Hgt k Hk. apply urlParamsWithinMax_gt in Hgt.
      rewrite Hgt in Hrun. injection Hrun as -> _.
      by rewrite Hkeep.
  - intros base fragment Htext Hbase Hfragment. unfold Strings.Join2.
    rewrite Htext, Replace_strips_query_before, Encode_query_encoding; [|done|].
    + by rewrite !append_assoc.
    + by rewrite member_append, Hfragment.
Qed.

Lemma buildURLParams_overlay_witness :
  @url_Parse Sample.env "http://example.com/p?a=1&c=3"
    = Ok {| Sample.su_base := "http://example.com/p";
            Sample.su_query := "a=1&c=3";
            Sample.su_fragment := EmptyString |} /\
  exists (merged : Url.Values) (keys : list string),
    (forall k v, ({[ "a" := "9"; "b" := "2" ]} : gmap string string) !! k = Some v ->
       merged !! k = Some [v]) /\
    (forall k, ({[ "a" := "9"; "b" := "2" ]} : gmap string string) !! k = None ->
       merged !! k = (Url.ParseQuery "a=1&c=3").1 !! k) /\
    keys ≡ₚ (map_to_list merged).*1 /\
    StronglySorted String.le keys /\
    @buildURLParams Sample.env "http://example.com/p?a=1&c=3" {[ "a" := "9"; "b" := "2" ]} =
      Ok (Strings.Replace "http://example.com/p?a=1&c=3" "?a=1&c=3" EmptyString
          +:+ "?" +:+ Spec.query_encoding keys merged) /\
    (forall base,
       "http://example.com/p?a=1&c=3" = base +:+ "?" +:+ "a=1&c=3" ->
       Bytes.member "?" base = false ->
       @buildURLParams Sample.env "http://example.com/p?a=1&c=3"
         {[ "a" := "9"; "b" := "2" ]} =
         Ok (base +:+ "?" +:+ Spec.query_encoding keys merged)) /\
    (forall existing : list (string * string),
       "a=1&c=3" = Spec.form_encoding existing ->
       ((N.of_nat (length existing) <= Url.defaultMaxParams)%N ->
          forall k, ({[ "a" := "9"; "b" := "2" ]} : gmap string string) !! k = None ->
            merged !!! k = Spec.values_of k existing) /\
       ((Url.defaultMaxParams < N.of_nat (length existing))%N ->
          forall k, ({[ "a" := "9"; "b" := "2" ]} : gmap string string) !! k = None ->
            merged !! k = None)) /\
    (forall base fragment,
       "http://example.com/p?a=1&c=3"
         = base +:+ "?" +:+ "a=1&c=3" +:+ "#" +:+ fragment ->
       Bytes.member "?" base = false ->
       Bytes.member "?" fragment = false ->
       @buildURLParams Sample.env "http://example.com/p?a=1&c=3"
         {[ "a" := "9"; "b" := "2" ]} =
         Ok (base +:+ "#" +:+ fragment +:+ "?" +:+ Spec.query_encoding keys merged)).
Proof.
  split; [reflexivity|].
  apply (@buildURLParams_overlay Sample.env "http://example.com/p?a=1&c=3"
           {[ "a" := "9"; "b" := "2" ]}
           {| Sample.su_base := "http://example.com/p";
              Sample.su_query := "a=1&c=3";
              Sample.su_fragment := EmptyString |}).
  reflexivity.
Defined.

(** The same input, evaluated: the caller's [a] replaces the URL's, [c]
    survives, and the keys come out sorted. *)
Example buildURLParams_sample :
  @buildURLParams Sample.env "http://example.com/p?a=1&c=3" {[ "a" := "9"; "b" := "2" ]}
  = Ok "http://example.com/p?a=9&b=2&c=3".
Proof. by vm_compute. Qed.

(** A URL that ends in a fragment, evaluated: what is left of the URL's text
    keeps the fragment, and the query is attached after it. *)
Example buildURLParams_fragment_sample :
  @buildURLParams Sample.env "http://example.com/p?a=1#top" {[ "b" := "2" ]}
  = Ok "http://example.com/p#top?a=1&b=2".
Proof. by vm_compute. Qed.

(** Read as a URL again, that result has an empty query: everything after
    the [#] is its fragment. *)
Example buildURLParams_fragment_reparsed :
  @url_Parse Sample.env "http://example.com/p#top?a=1&b=2"
  = Ok {| Sample.su_base := "http://example.com/p";
          Sample.su_query := EmptyString;
          Sample.su_fragment := "top?a=1&b=2" |}.
Proof. reflexivity. Qed.

(** The whole call on that input, evaluated: the request that is dispatched
    has no query. *)
Example fragment_query_dispatched :
  (fun cr => URL_RawQuery (URL cr.2)) <$>
    dispatched (buildRequest Sample.Do "GET" "http://example.com/p?a=1#top"
                  (Some (Sample.options None {[ "b" := "2" ]} None None)) None).1
    = [EmptyString] /\
  (fun cr => URL_String (URL cr.2)) <$>
    dispatched (buildRequest Sample.Do "GET" "http://example.com/p?a=1#top"
                  (Some (Sample.options None {[ "b" := "2" ]} None None)) None).1
    = ["http://example.com/p#top?a=1&b=2"].
Proof. split; by vm_compute. Qed.

(** A URL whose fragment repeats [?] and the raw query, evaluated: every
    occurrence is removed, not only the one that starts the query. *)
Example buildURLParams_repeated_sample :
  @buildURLParams Sample.env "http://example.com/p?x#part?x" {[ "k" := "v" ]}
  = Ok "http://example.com/p#part?k=v&x=".
Proof. by vm_compute. Qed.

(** A query of the one parameter [a=1] followed by 9999 times [&] parses
    to that parameter; followed by 10000 times [&], evaluated: the parser
    refuses it, and [a] is not in the rewritten URL. *)
Example buildURLParams_crowded_sample :
  (Url.ParseQuery ("a=1" +:+ Sample.ampersands (100 * 100 - 1))).1 !! "a" = Some ["1"] /\
  (Url.ParseQuery ("a=1" +:+ Sample.ampersands (100 * 100 - 1))).2 = None /\
  Url.ParseQuery ("a=1" +:+ Sample.ampersands (100 * 100))
    = (∅, Some ErrQueryParamsLimit) /\
  @buildURLParams Sample.env
    ("http://example.com/?a=1" +:+ Sample.ampersands (100 * 100)) {[ "k" := "v" ]}
  = Ok "http://example.com/?k=v".
Proof. repeat split; by vm_compute. Qed.

(** ** Client selection (C5) and proxy resolution (C8) *)

Lemma DontUseDefaultClient_spec `{E : Env} (ro : RequestOptions) :
  DontUseDefaultClient ro = true <-> overridden ro.
Proof.
  unfold DontUseDefaultClient, overridden.
  rewrite !orb_true_iff, !negb_true_iff, !Z.eqb_neq, !Nat.eqb_neq.
  rewrite !Bool.eqb_true_iff, Bool.eqb_false_iff, map_size_empty_iff.
  assert (Hc : length (Cookies ro) <> 0%nat <-> Cookies ro <> []).
  { by destruct (Cookies ro). }
  assert (Hj : UseCookieJar ro <> false <-> UseCookieJar ro = true).
  { by destruct (UseCookieJar ro). }
  rewrite Hc, Hj, !Logic.or_assoc. reflexivity.
Qed.

(** C5: with no client supplied, the builder returns the shared default
    client exactly when no override is set (TLS verification disabled,
    compression disabled, a proxy entry, a non-zero TLS handshake timeout,
    dial timeout or dial keep-alive, a cookie, the cookie jar requested);
    a supplied client is returned as it is, whatever the other fields
    hold. *)
Theorem BuildHTTPClient_decision `{E : Env} (ro : RequestOptions) :
  (HTTPClient ro = None ->
     (BuildHTTPClient ro = http_DefaultClient <-> ~ overridden ro)) /\
  (forall c, HTTPClient ro = Some c -> BuildHTTPClient ro = c).
Proof.
  split.
  - intros Hnil. unfold BuildHTTPClient. rewrite Hnil.
    rewrite <- DontUseDefaultClient_spec.
    destruct (DontUseDefaultClient ro); simpl; split; done.
  - intros c Hc. unfold BuildHTTPClient. by rewrite Hc.
Qed.

(** C8: with an empty proxy map the proxy is the ambient environment's; a
    map entry for the request's scheme is returned as it is; a non-empty map
    without that scheme falls back to the ambient environment, whose answer
    is returned unchanged, so that the missing entry is no error of its
    own. *)
Theorem proxySettings_resolution `{E : Env} (ro : RequestOptions) (req : Request) :
  (Proxies ro = ∅ ->
     proxySettings ro req = http_ProxyFromEnvironment (URL req)) /\
  (forall proxy, Proxies ro !! URL_Scheme (URL req) = Some proxy ->
     proxySettings ro req = Ok proxy) /\
  (Proxies ro <> ∅ -> Proxies ro !! URL_Scheme (URL req) = None ->
     proxySettings ro req = http_ProxyFromEnvironment (URL req) /\
     (forall answer, http_ProxyFromEnvironment (URL req) = Ok answer ->
        proxySettings ro req = Ok answer)).
Proof.
  unfold proxySettings. split; [|split].
  - intros ->. by rewrite map_size_empty.
  - intros proxy Hp. case_decide as Hsize.
    + apply map_size_empty_iff in Hsize. by rewrite Hsize, lookup_empty in Hp.
    + by rewrite Hp.
  - intros Hne Hnone. rewrite Hnone.
    case_decide; split; try done; by intros answer ->.
Qed.

(** ** Nil options (C10) *)

Lemma BuildHTTPClient_zero `{E : Env} : BuildHTTPClient zero_RequestOptions = http_DefaultClient.
Proof. reflexivity. Qed.

Lemma buildHTTPRequest_zero `{E : Env} (httpMethod userURL : string) :
  buildHTTPRequest httpMethod userURL zero_RequestOptions
  = pure (of_result (http_NewRequest httpMethod userURL nil_Reader)).
Proof. reflexivity. Qed.

Lemma addHTTPHeaders_zero `{E : Env} (req : Request) :
  addHTTPHeaders zero_RequestOptions req = Ret (Header_Set req "User-Agent" localUserAgent).
Proof. unfold addHTTPHeaders. simpl. by rewrite map_range_empty. Qed.

Lemma buildRequest_zero `{E : Env} (Do : Client -> Request -> result http_Response)
    (httpMethod url : string) (httpClient : option Client) :
  buildRequest Do httpMethod url (Some zero_RequestOptions) httpClient
  = match http_NewRequest httpMethod url nil_Reader with
    | Err err => ([], Fail err)
    | Ok req =>
        let client := default http_DefaultClient httpClient in
        let req := Header_Set req "User-Agent" localUserAgent in
        ([client_Do client req], of_result (Do client req))
    end.
Proof.
  unfold buildRequest.
  change (size (Params zero_RequestOptions)) with 0%nat.
  rewrite decide_False by (intros H; by apply H).
  rewrite buildHTTPRequest_zero.
  destruct (http_NewRequest httpMethod url nil_Reader) as [req|err]; [|done].
  unfold pure, of_result, bind. rewrite addHTTPHeaders_zero. simpl.
  by destruct httpClient.
Qed.

(** C10: a nil options pointer behaves exactly as an all-zero options bag;
    the call does not panic; and, with no client passed either, the request
    goes to the shared default client with no body and with the default
    User-Agent as its only header (or the error of [http.NewRequest] is
    returned and nothing is dispatched). *)
Theorem buildRequest_nil_options `{E : Env} (Do : Client -> Request -> result http_Response)
    (httpMethod url : string) (httpClient : option Client) :
  buildRequest Do httpMethod url None httpClient
    = buildRequest Do httpMethod url (Some zero_RequestOptions) httpClient /\
  (forall msg, (buildRequest Do httpMethod url None httpClient).2 <> Panic msg) /\
  (forall req, http_NewRequest httpMethod url nil_Reader = Ok req ->
     let req' := {| Method := Method req; URL := URL req;
                    Header := {[ "User-Agent" := [localUserAgent] ]};
                    Body := nil_Reader |} in
     buildRequest Do httpMethod url None None
       = ([client_Do http_DefaultClient req'], of_result (Do http_DefaultClient req'))) /\
  (forall err, http_NewRequest httpMethod url nil_Reader = Err err ->
     buildRequest Do httpMethod url None None = ([], Fail err)).
Proof.
  assert (Hnil : forall c, buildRequest Do httpMethod url None c
                   = buildRequest Do httpMethod url (Some zero_RequestOptions) c)
    by reflexivity.
  split; [apply Hnil|]. split; [|split].
  - intros msg. rewrite Hnil, buildRequest_zero.
    destruct (http_NewRequest httpMethod url nil_Reader) as [req|err]; [|done].
    simpl. by destruct (Do _ _).
  - intros req Hreq. rewrite Hnil, buildRequest_zero, Hreq. simpl.
    destruct (http_NewRequest_Ok _ _ _ _ Hreq) as [Hhdr Hbody].
    unfold Header_Set, set_Header, HttpHeader.Set_.
    autorewrite with canonical. by rewrite Hhdr, Hbody, insert_empty.
  - intros err Herr. by rewrite Hnil, buildRequest_zero, Herr.
Qed.

(** ** Body-encoding selection (C2) *)

Lemma createBasicJSONRequest_Ret `{E : Env} (httpMethod userURL : string)
    (ro : RequestOptions) (req : Request) :
  createBasicJSONRequest httpMethod userURL ro = Ret req ->
  exists text, json_Encode (JSON ro) = Ok text /\
    Body req = bytes_Buffer text /\
    Header req = {[ "Content-Type" := ["application/json"] ]} /\
    HttpHeader.Get (Header req) "Content-Type" = "application/json".
Proof.
  unfold createBasicJSONRequest.
  destruct (json_Encode (JSON ro)) as [text|e]; [|done]. new_request.
  intros [= <-]. exists text. unfold Header_Set, set_Header. simpl.
  split; [done|]. split; [done|].
  split; [apply Set_Content_Type_empty|apply Get_Set_eq].
Qed.

(** C2: exactly one body-encoding path is taken, the first that matches in
    the order JSON, XML, File, Data, none; with both JSON and XML set, a
    request that is built has the JSON encoding as its body and
    application/json as its only header, and the result depends on no field
    of the options but JSON, so the XML value is ignored.  With JSON set a
    request is built whenever the JSON encoder and [http.NewRequest]
    succeed, and it is that request; an error of either is returned.  On
    each of the other paths the request that is built when the encoder and
    [http.NewRequest] succeed is the one of that path alone: the XML text
    with application/xml, the raw stream for a verb other than POST, the
    form body with application/x-www-form-urlencoded, or no body and no
    header. *)
Theorem buildHTTPRequest_selection `{E : Env} (httpMethod userURL : string)
    (ro : RequestOptions) :
  (is_Some (JSON ro) ->
     buildHTTPRequest httpMethod userURL ro
       = pure (createBasicJSONRequest httpMethod userURL ro)) /\
  (JSON ro = None -> is_Some (XML ro) ->
     buildHTTPRequest httpMethod userURL ro
       = pure (createBasicXMLRequest httpMethod userURL ro)) /\
  (JSON ro = None -> XML ro = None -> is_Some (File ro) ->
     buildHTTPRequest httpMethod userURL ro
       = createFileUploadRequest httpMethod userURL ro) /\
  (JSON ro = None -> XML ro = None -> File ro = None -> is_Some (Data ro) ->
     buildHTTPRequest httpMethod userURL ro
       = pure (createBasicRequest httpMethod userURL ro)) /\
  (JSON ro = None -> XML ro = None -> File ro = None -> Data ro = None ->
     buildHTTPRequest httpMethod userURL ro
       = pure (of_result (http_NewRequest httpMethod userURL nil_Reader))) /\
  (is_Some (JSON ro) -> is_Some (XML ro) ->
     (forall tr req, buildHTTPRequest httpMethod userURL ro = (tr, Ret req) ->
        exists text, json_Encode (JSON ro) = Ok text /\
          Body req = bytes_Buffer text /\
          Header req = {[ "Content-Type" := ["application/json"] ]} /\
          HttpHeader.Get (Header req) "Content-Type" = "application/json") /\
     (forall ro' : RequestOptions, JSON ro' = JSON ro ->
        buildHTTPRequest httpMethod userURL ro'
          = buildHTTPRequest httpMethod userURL ro)) /\
  (is_Some (JSON ro) ->
     (forall text m u,
        json_Encode (JSON ro) = Ok text ->
        http_NewRequest_parse httpMethod userURL = Ok (m, u) ->
        buildHTTPRequest httpMethod userURL ro
          = ([], Ret {| Method := m; URL := u;
                        Header := {[ "Content-Type" := ["application/json"] ]};
                        Body := bytes_Buffer text |})) /\
     (forall err,
        json_Encode (JSON ro) = Err err ->
        buildHTTPRequest httpMethod userURL ro = ([], Fail err)) /\
     (forall text err,
        json_Encode (JSON ro) = Ok text ->
        http_NewRequest_parse httpMethod userURL = Err err ->
        buildHTTPRequest httpMethod userURL ro = ([], Fail err))) /\
  (forall m u,
     http_NewRequest_parse httpMethod userURL = Ok (m, u) ->
     JSON ro = None ->
     (forall text,
        is_Some (XML ro) -> xml_Encode (XML ro) = Ok text ->
        buildHTTPRequest httpMethod userURL ro
          = ([], Ret {| Method := m; URL := u;
                        Header := {[ "Content-Type" := ["application/xml"] ]};
                        Body := bytes_Buffer text |})) /\
     (forall file,
        XML ro = None -> File ro = Some file -> httpMethod <> "POST" ->
        buildHTTPRequest httpMethod userURL ro
          = ([], Ret {| Method := m; URL := u;
                        Header := {[ "Content-Type" :=
                                       [mime_TypeByExtension (FileName file)] ]};
                        Body := as_Reader (FileContents file) |})) /\
     (forall data,
        XML ro = None -> File ro = None -> Data ro = Some data ->
        buildHTTPRequest httpMethod userURL ro
          = ([], Ret {| Method := m; URL := u;
                        Header := {[ "Content-Type" :=
                                       ["application/x-www-form-urlencoded"] ]};
                        Body := strings_Reader (encodePostValues (Some data)) |})) /\
     (XML ro = None -> File ro = None -> Data ro = None ->
        buildHTTPRequest httpMethod userURL ro
          = ([], Ret {| Method := m; URL := u; Header := ∅; Body := nil_Reader |}))).
Proof.
  assert (Hjson : forall ro0 : RequestOptions, is_Some (JSON ro0) ->
            buildHTTPRequest httpMethod userURL ro0
              = pure (createBasicJSONRequest httpMethod userURL ro0)).
  { intros ro0 H. unfold buildHTTPRequest. by rewrite decide_True. }
  split; [apply Hjson|].
  split; [|split; [|split; [|split; [|split; [|split]]]]].
  - intros Hj Hx. unfold buildHTTPRequest. rewrite Hj.
    rewrite decide_False by apply is_Some_None. by rewrite decide_True.
  - intros Hj Hx Hf. unfold buildHTTPRequest. rewrite Hj, Hx.
    rewrite !decide_False by apply is_Some_None. by rewrite decide_True.
  - intros Hj Hx Hf Hd. unfold buildHTTPRequest. rewrite Hj, Hx, Hf.
    rewrite !decide_False by apply is_Some_None. by rewrite decide_True.
  - intros Hj Hx Hf Hd. unfold buildHTTPRequest. rewrite Hj, Hx, Hf, Hd.
    by rewrite !decide_False by apply is_Some_None.
  - intros Hj Hx. split.
    + intros tr req. rewrite Hjson by done. intros [= _ Hreq].
      by apply createBasicJSONRequest_Ret in Hreq.
    + intros ro' Heq. rewrite !Hjson by (by rewrite ?Heq).
      unfold createBasicJSONRequest. by rewrite Heq.
  - intros Hj. rewrite Hjson by done. unfold createBasicJSONRequest, http_NewRequest.
    split; [|split].
    + intros text m u -> ->. unfold Header_Set, set_Header, pure. simpl.
      by rewrite Set_Content_Type_empty.
    + by intros err ->.
    + by intros text err -> ->.
  - intros m u Hnew Hj. unfold buildHTTPRequest. rewrite Hj.
    rewrite decide_False by apply is_Some_None.
    split; [|split; [|split]].
    + intros text Hx Htext. rewrite decide_True by done.
      unfold createBasicXMLRequest, http_NewRequest. rewrite Htext, Hnew.
      unfold Header_Set, set_Header, pure. simpl.
      by rewrite Set_Content_Type_empty.
    + intros file Hx Hf Hpost. rewrite Hx, Hf.
      rewrite decide_False by apply is_Some_None.
      rewrite decide_True by done.
      unfold createFileUploadRequest. rewrite decide_False by done.
      rewrite Hf. unfold http_NewRequest. rewrite Hnew.
      unfold Header_Set, set_Header, pure. simpl.
      by rewrite Set_Content_Type_empty.
    + intros data Hx Hf Hd. rewrite Hx, Hf, Hd.
      rewrite !decide_False by apply is_Some_None.
      rewrite decide_True by done.
      unfold createBasicRequest, http_NewRequest. rewrite Hnew, Hd.
      unfold Header_Set, set_Header, pure. simpl.
      by rewrite Set_Content_Type_empty.
    + intros Hx Hf Hd. rewrite Hx, Hf, Hd.
      rewrite !decide_False by apply is_Some_None.
      unfold http_NewRequest. by rewrite Hnew.
Qed.

(** Options with a JSON value, an XML value, a file and form data, sent
    with POST, evaluated: the request is built, its body is the JSON text
    and its only header is Content-Type application/json. *)
Example json_and_xml_sample :
  exists req,
    buildHTTPRequest "POST" "http://example.com/" Sample.json_and_xml = ([], Ret req) /\
    Method req = "POST" /\
    Body req = bytes_Buffer "true" /\
    Header req = {[ "Content-Type" := ["application/json"] ]} /\
    HttpHeader.Get (Header req) "Content-Type" = "application/json".
Proof.
  eexists. split; [reflexivity|]. split; [reflexivity|]. split; [reflexivity|].
  cbn [Header Header_Set set_Header].
  split; [apply Set_Content_Type_empty|apply Get_Set_eq].
Qed.

(** ** Panics and header attachment (C4) *)

Lemma createMultiPartPostRequest_no_panic `{E : Env} (httpMethod userURL : string)
    (ro : RequestOptions) (msg : string) :
  is_Some (File ro) -> (createMultiPartPostRequest httpMethod userURL ro).2 <> Panic msg.
Proof.
  intros [file Hfile]. unfold createMultiPartPostRequest. rewrite Hfile.
  destruct (multipart_CreateFormFile _ _ _) as [writer|e]; [|done].
  destruct (FileContents file) as [contents|]; [|done].
  unfold io_Copy, emit, defer, pure. simpl.
  destruct (multipart_Close _) as [w|e]; simpl.
  - destruct (http_NewRequest _ _ _) as [req|e]; simpl;
      repeat case_decide; simpl; done.
  - repeat case_decide; simpl; done.
Qed.

Lemma buildHTTPRequest_no_panic `{E : Env} (httpMethod userURL : string)
    (ro : RequestOptions) (msg : string) :
  (buildHTTPRequest httpMethod userURL ro).2 <> Panic msg.
Proof.
  unfold buildHTTPRequest. repeat case_decide; simpl.
  - unfold createBasicJSONRequest.
    destruct (json_Encode _); [|done]. by destruct (http_NewRequest _ _ _).
  - unfold createBasicXMLRequest.
    destruct (xml_Encode _); [|done]. by destruct (http_NewRequest _ _ _).
  - unfold createFileUploadRequest. case_decide.
    + by apply createMultiPartPostRequest_no_panic.
    + destruct (File ro) as [file|] eqn:Hfile; [|by destruct (is_Some_None (A:=FileUpload))].
      by destruct (http_NewRequest _ _ _).
  - unfold createBasicRequest. by destruct (http_NewRequest _ _ _).
  - by destruct (http_NewRequest _ _ _).
Qed.

(** With credentials of at least two elements, or none, the headers are
    attached and the credentials are the first two elements. *)
Lemma addHTTPHeaders_Ret `{E : Env} (ro : RequestOptions) (req : Request) :
  (forall auth, Auth ro = Some auth -> 2 <= length auth) ->
  exists req', addHTTPHeaders ro req = Ret req' /\
    forall username password rest,
      Auth ro = Some (username :: password :: rest) ->
      HttpHeader.Get (Header req') "Authorization"
        = "Basic " +:+ base64_EncodeToString (username +:+ ":" +:+ password).
Proof.
  intros Hlen. unfold addHTTPHeaders.
  set (req1 := foldl _ req _).
  set (req2 := if decide (UserAgent ro <> EmptyString) then _ else _).
  destruct (Auth ro) as [auth|] eqn:Hauth.
  - specialize (Hlen auth eq_refl).
    destruct auth as [|username [|password rest]]; simpl in Hlen; [lia|lia|].
    simpl. eexists. split; [done|].
    intros ? ? ? [= <- <- <-].
    destruct (IsAjax ro); simpl.
    + rewrite Get_Set_ne.
      * apply Get_Set_eq.
      * by autorewrite with canonical.
    + apply Get_Set_eq.
  - eexists. split; [done|]. by intros.
Qed.

(** C4, as the code has it: for an options bag whose Auth is nil or holds at
    least two elements, header and credential attachment returns a request
    (it neither fails nor panics), the Basic credentials are element 0 as
    user name and element 1 as password, and request assembly as a whole
    never panics: it ends with a returned value or a returned error. *)
Theorem addHTTPHeaders_total `{E : Env} (Do : Client -> Request -> result http_Response)
    (ro : RequestOptions) :
  (forall auth, Auth ro = Some auth -> 2 <= length auth) ->
  (forall req, exists req', addHTTPHeaders ro req = Ret req' /\
     forall username password rest,
       Auth ro = Some (username :: password :: rest) ->
       HttpHeader.Get (Header req') "Authorization"
         = "Basic " +:+ base64_EncodeToString (username +:+ ":" +:+ password)) /\
  (forall httpMethod url httpClient msg,
     (buildRequest Do httpMethod url (Some ro) httpClient).2 <> Panic msg).
Proof.
  intros Hlen. split.
  - intros req. by apply addHTTPHeaders_Ret.
  - intros httpMethod url httpClient msg. unfold buildRequest.
    destruct (if decide (size (Params ro) <> 0) then _ else _) as [url'|e]; [|done].
    pose proof (buildHTTPRequest_no_panic httpMethod url' ro) as Hbuild.
    destruct (buildHTTPRequest httpMethod url' ro) as [tr [req|e|msg']]; simpl in *.
    + destruct (addHTTPHeaders_Ret ro req Hlen) as (req' & -> & _). simpl.
      by destruct (Do _ _).
    + done.
    + by destruct (Hbuild msg').
Qed.

Lemma addHTTPHeaders_total_witness :
  (forall auth, Auth (Sample.options None ∅ None (Some ["alice"; "secret"])) = Some auth ->
     2 <= length auth) /\
  (forall req, exists req',
     addHTTPHeaders (Sample.options None ∅ None (Some ["alice"; "secret"])) req = Ret req' /\
     forall username password rest,
       Auth (Sample.options None ∅ None (Some ["alice"; "secret"]))
         = Some (username :: password :: rest) ->
       HttpHeader.Get (Header req') "Authorization"
         = "Basic " +:+ Sample.EncodeToString (username +:+ ":" +:+ password)) /\
  (forall httpMethod url httpClient msg,
     (buildRequest Sample.Do httpMethod url
        (Some (Sample.options None ∅ None (Some ["alice"; "secret"]))) httpClient).2
       <> Panic msg).
Proof.
  assert (H : forall auth,
             Auth (Sample.options None ∅ None (Some ["alice"; "secret"])) = Some auth ->
             2 <= length auth).
  { intros auth [= <-]. simpl. lia. }
  split; [exact H|].
  exact (@addHTTPHeaders_total Sample.env Sample.Do
           (Sample.options None ∅ None (Some ["alice"; "secret"])) H).
Defined.

(** The credentials alice/secret, evaluated. *)
Example basic_auth_sample (req : @Request Sample.env) :
  exists req', addHTTPHeaders (Sample.options None ∅ None (Some ["alice"; "secret"])) req
               = Ret req' /\
    HttpHeader.Get (Header req') "Authorization" = "Basic YWxpY2U6c2VjcmV0".
Proof.
  destruct (addHTTPHeaders_Ret (Sample.options None ∅ None (Some ["alice"; "secret"])) req)
    as (req' & Hreq & Hauth).
  { intros auth [= <-]. simpl. lia. }
  exists req'. split; [done|]. by rewrite (Hauth "alice" "secret" []).
Qed.

(** Credentials of a single element: the claim's "Auth set (non-nil)" holds,
    and attaching the headers panics, as does the whole assembly, before
    anything is dispatched. *)
Lemma short_Auth_panics :
  Auth (Sample.options None ∅ None (Some ["alice"])) <> None /\
  (forall req, addHTTPHeaders (Sample.options None ∅ None (Some ["alice"])) req
               = Panic index_out_of_range) /\
  buildRequest Sample.Do "GET" "http://example.com/"
    (Some (Sample.options None ∅ None (Some ["alice"]))) None
  = ([], Panic index_out_of_range).
Proof. split; [done|]. split; [done|]. reflexivity. Qed.

(** ** Closing the upload stream (C1) *)

(** C1, as the code has it: once the file part is created and the stream is
    not nil, the stream is closed exactly once when the copy ends cleanly
    (whether or not the multipart writer then closes and the request is
    built), and it is not closed at all when the copy fails, the call then
    returning the stream's error: the deferred close is registered only
    after that return. *)
Theorem createMultiPartPostRequest_closes `{E : Env} (httpMethod userURL : string)
    (ro : RequestOptions) (file : FileUpload) (contents : ReadCloser)
    (writer : multipart_Writer) :
  File ro = Some file ->
  FileContents file = Some contents ->
  multipart_CreateFormFile multipart_NewWriter "file" (FileName file) = Ok writer ->
  (rc_end contents = io_EOF ->
     closes (createMultiPartPostRequest httpMethod userURL ro).1 = 1) /\
  (rc_end contents <> io_EOF ->
     createMultiPartPostRequest httpMethod userURL ro
       = ([stream_Read], Fail (rc_end contents)) /\
     closes (createMultiPartPostRequest httpMethod userURL ro).1 = 0).
Proof.
  intros Hfile Hcontents Hpart.
  unfold createMultiPartPostRequest. rewrite Hfile, Hpart, Hcontents.
  unfold io_Copy, emit. split.
  - intros Hend. rewrite decide_True by done.
    unfold defer, pure. simpl.
    destruct (multipart_Close _) as [w|e]; [|done].
    by destruct (http_NewRequest _ _ _).
  - intros Hend. rewrite decide_False by done.
    by rewrite decide_True by done.
Qed.

Lemma createMultiPartPostRequest_closes_witness :
  File (Sample.options None ∅
          (Some {| FileName := "notes.txt"; FileContents := Some Sample.broken |}) None)
    = Some {| FileName := "notes.txt"; FileContents := Some Sample.broken |} /\
  FileContents {| FileName := "notes.txt"; FileContents := Some Sample.broken |}
    = Some Sample.broken /\
  @multipart_CreateFormFile Sample.env multipart_NewWriter "file" "notes.txt"
    = Ok "[part file filename=notes.txt]" /\
  (rc_end Sample.broken = io_EOF ->
     closes (createMultiPartPostRequest "POST" "http://example.com/upload"
               (Sample.options None ∅
                  (Some {| FileName := "notes.txt"; FileContents := Some Sample.broken |})
                  None)).1 = 1) /\
  (rc_end Sample.broken <> io_EOF ->
     createMultiPartPostRequest "POST" "http://example.com/upload"
       (Sample.options None ∅
          (Some {| FileName := "notes.txt"; FileContents := Some Sample.broken |}) None)
       = ([stream_Read], Fail (rc_end Sample.broken)) /\
     closes (createMultiPartPostRequest "POST" "http://example.com/upload"
               (Sample.options None ∅
                  (Some {| FileName := "notes.txt"; FileContents := Some Sample.broken |})
                  None)).1 = 0).
Proof.
  split; [reflexivity|]. split; [reflexivity|]. split; [reflexivity|].
  exact (@createMultiPartPostRequest_closes Sample.env "POST" "http://example.com/upload"
           (Sample.options None ∅
              (Some {| FileName := "notes.txt"; FileContents := Some Sample.broken |}) None)
           {| FileName := "notes.txt"; FileContents := Some Sample.broken |}
           Sample.broken "[part file filename=notes.txt]"
           eq_refl eq_refl eq_refl).
Defined.

(** The broken stream, evaluated: the upload fails with the stream's error
    and the trace holds the read and no close. *)
Example broken_stream_left_open :
  createMultiPartPostRequest "POST" "http://example.com/upload"
    (Sample.options None ∅
       (Some {| FileName := "notes.txt"; FileContents := Some Sample.broken |}) None)
  = ([stream_Read], Fail (LibError "unexpected read error")).
Proof. reflexivity. Qed.

(** The ten-byte stream with a form field, evaluated: one read, one close. *)
Example ten_bytes_closed_once :
  (createMultiPartPostRequest "POST" "http://example.com/upload"
     (Sample.options (Some {[ "note" := "hi" ]}) ∅
        (Some {| FileName := "notes.txt"; FileContents := Some Sample.ten_bytes |})
        None)).1
  = [stream_Read; stream_Close].
Proof. reflexivity. Qed.

(** ** Errors of the URL rewrite (C3) *)

(** C3, as the code has it: a URL that does not parse makes [buildURLParams]
    and, with Params set, the whole assembly return that error with nothing
    dispatched; a URL that parses yields a rewritten URL and no error even
    when the query parser reports an error on its raw query, since that
    error is assigned and never looked at. *)
Theorem buildURLParams_errors `{E : Env} (Do : Client -> Request -> result http_Response)
    (userURL : string) (params : gmap string string) :
  (forall err, url_Parse userURL = Err err ->
     buildURLParams userURL params = Err err /\
     forall httpMethod ro httpClient,
       Params ro = params -> params <> ∅ ->
       buildRequest Do httpMethod userURL (Some ro) httpClient = ([], Fail err)) /\
  (forall parsedURL err,
     url_Parse userURL = Ok parsedURL ->
     (Url.ParseQuery (URL_RawQuery parsedURL)).2 = Some err ->
     exists rewritten, buildURLParams userURL params = Ok rewritten).
Proof.
  split.
  - intros err Hparse.
    assert (Hb : buildURLParams userURL params = Err err).
    { unfold buildURLParams. by rewrite Hparse. }
    split; [done|].
    intros httpMethod ro httpClient Hparams Hne. unfold buildRequest.
    rewrite decide_True.
    + by rewrite Hparams, Hb.
    + rewrite Hparams. by rewrite map_size_empty_iff.
  - intros parsedURL err Hparse _. unfold buildURLParams. rewrite Hparse.
    destruct (Url.ParseQuery _) as [q e]. by eexists.
Qed.

(** The URL [http://example.com/?a=%zz] with Params {k: v}, evaluated: the
    query parser reports the bad escape, the rewrite returns a URL all the
    same, and the request is dispatched. *)
Example malformed_query_dispatched :
  (Url.ParseQuery "a=%zz").2 = Some (EscapeError "%zz") /\
  @buildURLParams Sample.env "http://example.com/?a=%zz" {[ "k" := "v" ]}
    = Ok "http://example.com/?k=v" /\
  (buildRequest Sample.Do "GET" "http://example.com/?a=%zz"
     (Some (Sample.options None {[ "k" := "v" ]} None None)) None).2
    = Ret 200%nat /\
  (fun cr => URL_String (URL cr.2)) <$>
    dispatched (buildRequest Sample.Do "GET" "http://example.com/?a=%zz"
                  (Some (Sample.options None {[ "k" := "v" ]} None None)) None).1
    = ["http://example.com/?k=v"].
Proof. repeat split; by vm_compute. Qed.

(** ** Raw uploads (C9) *)

(** C9, as the code has it: for a verb other than POST and a file set, a
    request that is built has the file's stream itself as its body and, as
    its only header, the content type that [mime.TypeByExtension] gives for
    the whole file name. *)
Theorem createFileUploadRequest_raw `{E : Env} (httpMethod userURL : string)
    (ro : RequestOptions) (file : FileUpload) (tr : list event) (req : Request) :
  httpMethod <> "POST" ->
  File ro = Some file ->
  createFileUploadRequest httpMethod userURL ro = (tr, Ret req) ->
  tr = [] /\
  Body req = as_Reader (FileContents file) /\
  Header req = {[ "Content-Type" := [mime_TypeByExtension (FileName file)] ]} /\
  HttpHeader.Get (Header req) "Content-Type" = mime_TypeByExtension (FileName file).
Proof.
  intros Hverb Hfile. unfold createFileUploadRequest.
  rewrite decide_False by done. rewrite Hfile. new_request.
  intros [= <- <-]. unfold Header_Set, set_Header. simpl.
  split; [done|]. split; [done|].
  split; [apply Set_Content_Type_empty|apply Get_Set_eq].
Qed.

Lemma createFileUploadRequest_raw_witness :
  "PUT" <> "POST" /\
  File (Sample.options None ∅
          (Some {| FileName := "photo.png"; FileContents := Some Sample.ten_bytes |}) None)
    = Some {| FileName := "photo.png"; FileContents := Some Sample.ten_bytes |} /\
  createFileUploadRequest "PUT" "http://example.com/upload"
    (Sample.options None ∅
       (Some {| FileName := "photo.png"; FileContents := Some Sample.ten_bytes |}) None)
    = ([], Ret {| Method := "PUT";
                  URL := {| Sample.su_base := "http://example.com/upload";
                            Sample.su_query := EmptyString;
                            Sample.su_fragment := EmptyString |};
                  Header := HttpHeader.Set_ ∅ "Content-Type"
                              (Sample.TypeByExtension "photo.png");
                  Body := stream_Reader Sample.ten_bytes |}) /\
  ([] = @nil (@event Sample.env) /\
   stream_Reader Sample.ten_bytes = as_Reader (Some Sample.ten_bytes) /\
   HttpHeader.Set_ ∅ "Content-Type" (Sample.TypeByExtension "photo.png")
     = {[ "Content-Type" := [Sample.TypeByExtension "photo.png"] ]} /\
   HttpHeader.Get (HttpHeader.Set_ ∅ "Content-Type" (Sample.TypeByExtension "photo.png"))
     "Content-Type" = Sample.TypeByExtension "photo.png").
Proof.
  assert (Hverb : "PUT" <> "POST") by discriminate.
  split; [exact Hverb|]. split; [reflexivity|]. split; [reflexivity|].
  exact (@createFileUploadRequest_raw Sample.env "PUT" "http://example.com/upload"
           (Sample.options None ∅
              (Some {| FileName := "photo.png"; FileContents := Some Sample.ten_bytes |})
              None)
           {| FileName := "photo.png"; FileContents := Some Sample.ten_bytes |}
           [] _ Hverb eq_refl eq_refl).
Defined.

(** The file [photo.png] sent with PUT, evaluated: the table has a type for
    the extension [.png] and none for the name [photo.png], and the request
    goes out with an empty content type. *)
Example photo_png_content_type :
  Sample.TypeByExtension ".png" = "image/png" /\
  Sample.TypeByExtension "photo.png" = EmptyString /\
  exists req,
    createFileUploadRequest "PUT" "http://example.com/upload"
      (Sample.options None ∅
         (Some {| FileName := "photo.png"; FileContents := Some Sample.ten_bytes |}) None)
      = ([], Ret req) /\
    Body req = stream_Reader Sample.ten_bytes /\
    HttpHeader.Get (Header req) "Content-Type" = EmptyString.
Proof.
  split; [by vm_compute|]. split; [by vm_compute|].
  eexists. split; [reflexivity|]. split; [reflexivity|].
  cbn [Header Header_Set set_Header]. rewrite Get_Set_eq. by vm_compute.
Qed.

(** * Further properties of the code *)

(** ** The dedicated client *)

Lemma proxySettings_set_timeouts `{E : Env} (ro : RequestOptions) (tls dial keepAlive : Z)
    (req : Request) :
  proxySettings (set_timeouts ro tls dial keepAlive) req = proxySettings ro req.
Proof. reflexivity. Qed.

(** X1: when no client is supplied and some override is set, the builder
    allocates a client with a public-suffix cookie jar whose transport takes
    each timeout from the options, a zero timeout being replaced by its
    default (handshake 10 s, dial 30 s, keep-alive 30 s) so that none is
    zero, copies the two flags, and resolves proxies as [proxySettings] does
    on the caller's options. *)
Theorem BuildHTTPClient_dedicated `{E : Env} (ro : RequestOptions) :
  HTTPClient ro = None ->
  overridden ro ->
  exists tr : Transport,
    BuildHTTPClient ro = new_Client cookiejar_New_publicsuffix tr /\
    tr_TLSHandshakeTimeout tr
      = (if decide (TLSHandshakeTimeout ro = 0) then 10000000000
         else TLSHandshakeTimeout ro)%Z /\
    Dial_Timeout tr
      = (if decide (DialTimeout ro = 0) then 30000000000 else DialTimeout ro)%Z /\
    Dial_KeepAlive tr
      = (if decide (DialKeepAlive ro = 0) then 30000000000 else DialKeepAlive ro)%Z /\
    (tr_TLSHandshakeTimeout tr <> 0 /\ Dial_Timeout tr <> 0 /\ Dial_KeepAlive tr <> 0)%Z /\
    TLSClientConfig_InsecureSkipVerify tr = InsecureSkipVerify ro /\
    tr_DisableCompression tr = DisableCompression ro /\
    forall req, Proxy tr req = proxySettings ro req.
Proof.
  intros Hnil Hover. apply DontUseDefaultClient_spec in Hover.
  unfold BuildHTTPClient. rewrite Hnil, Hover. simpl.
  eexists. split; [reflexivity|]. simpl.
  unfold tslHandshakeTimeout, dialTimeout, dialKeepAlive, time_Second.
  destruct (Z.eqb_spec (TLSHandshakeTimeout ro) 0) as [H1|H1];
    destruct (Z.eqb_spec (DialTimeout ro) 0) as [H2|H2];
    destruct (Z.eqb_spec (DialKeepAlive ro) 0) as [H3|H3];
    repeat case_decide; try lia; repeat split; try done; lia.
Qed.

Lemma BuildHTTPClient_dedicated_witness :
  HTTPClient Sample.insecure = None /\
  overridden Sample.insecure /\
  exists tr : Transport,
    BuildHTTPClient Sample.insecure = new_Client cookiejar_New_publicsuffix tr /\
    tr_TLSHandshakeTimeout tr
      = (if decide (TLSHandshakeTimeout Sample.insecure = 0) then 10000000000
         else TLSHandshakeTimeout Sample.insecure)%Z /\
    Dial_Timeout tr
      = (if decide (DialTimeout Sample.insecure = 0) then 30000000000
         else DialTimeout Sample.insecure)%Z /\
    Dial_KeepAlive tr
      = (if decide (DialKeepAlive Sample.insecure = 0) then 30000000000
         else DialKeepAlive Sample.insecure)%Z /\
    (tr_TLSHandshakeTimeout tr <> 0 /\ Dial_Timeout tr <> 0 /\ Dial_KeepAlive tr <> 0)%Z /\
    TLSClientConfig_InsecureSkipVerify tr = InsecureSkipVerify Sample.insecure /\
    tr_DisableCompression tr = DisableCompression Sample.insecure /\
    forall req, Proxy tr req = proxySettings Sample.insecure req.
Proof.
  assert (Hover : overridden Sample.insecure) by (left; reflexivity).
  split; [reflexivity|]. split; [exact Hover|].
  exact (@BuildHTTPClient_dedicated Sample.env Sample.insecure eq_refl Hover).
Defined.

(** The sample options, evaluated: five seconds to dial, the defaults for
    the other two, verification off. *)
Example insecure_client_sample :
  exists tr : Transport,
    BuildHTTPClient Sample.insecure = new_Client cookiejar_New_publicsuffix tr /\
    Dial_Timeout tr = 5000000000%Z /\
    Dial_KeepAlive tr = 30000000000%Z /\
    tr_TLSHandshakeTimeout tr = 10000000000%Z /\
    TLSClientConfig_InsecureSkipVerify tr = true.
Proof. eexists. split; [reflexivity|]. by repeat split. Qed.

(** ** What a call dispatches *)

(** The traces of the multipart builder: nothing, the read, or the read and
    then the close. *)
Lemma createMultiPartPostRequest_trace `{E : Env} (httpMethod userURL : string)
    (ro : RequestOptions) :
  (createMultiPartPostRequest httpMethod userURL ro).1 = [] \/
  (createMultiPartPostRequest httpMethod userURL ro).1 = [stream_Read] \/
  (createMultiPartPostRequest httpMethod userURL ro).1 = [stream_Read; stream_Close].
Proof.
  unfold createMultiPartPostRequest.
  destruct (File ro) as [file|]; [|by left].
  destruct (multipart_CreateFormFile _ _ _) as [writer|e]; [|by left].
  destruct (FileContents file) as [contents|]; [|by left].
  unfold io_Copy, emit, defer, pure. right.
  destruct (multipart_Close _) as [w|e]; simpl.
  - destruct (http_NewRequest _ _ _) as [req|e]; simpl;
      repeat case_decide; simpl; auto.
  - repeat case_decide; simpl; auto.
Qed.

Lemma buildHTTPRequest_dispatches_nothing `{E : Env} (httpMethod userURL : string)
    (ro : RequestOptions) :
  dispatched (buildHTTPRequest httpMethod userURL ro).1 = [].
Proof.
  unfold buildHTTPRequest. repeat case_decide; try done.
  unfold createFileUploadRequest. case_decide.
  - by destruct (createMultiPartPostRequest_trace httpMethod userURL ro)
      as [-> | [-> | ->]].
  - destruct (File ro); [|done]. by destruct (http_NewRequest _ _ _).
Qed.

Lemma dispatched_app `{E : Env} (tr tr' : list event) :
  dispatched (tr ++ tr')%list = (dispatched tr ++ dispatched tr')%list.
Proof. apply omap_app. Qed.

(** X2: a call of [buildRequest] either dispatches nothing and returns no
    response, or dispatches exactly one request, to the client passed in or
    else to the one [BuildHTTPClient] gives for the options, and returns
    what that client's [Do] returns for that request: nothing is dispatched
    after a failure to build, nothing is dispatched twice, and no response
    comes from elsewhere. *)
Theorem buildRequest_dispatch `{E : Env} (Do : Client -> Request -> result http_Response)
    (httpMethod url : string) (ro : option RequestOptions) (httpClient : option Client) :
  (dispatched (buildRequest Do httpMethod url ro httpClient).1 = [] /\
   forall resp, (buildRequest Do httpMethod url ro httpClient).2 <> Ret resp) \/
  (exists req,
     dispatched (buildRequest Do httpMethod url ro httpClient).1
       = [(chosen_client ro httpClient, req)] /\
     (buildRequest Do httpMethod url ro httpClient).2
       = of_result (Do (chosen_client ro httpClient) req)).
Proof.
  unfold buildRequest.
  change (match ro with Some ro0 => ro0 | None => zero_RequestOptions end)
    with (default zero_RequestOptions ro).
  change (match httpClient with
          | Some c => c
          | None => BuildHTTPClient (default zero_RequestOptions ro)
          end) with (chosen_client ro httpClient).
  set (ro' := default zero_RequestOptions ro).
  destruct (if decide (size (Params ro') <> 0) then _ else _) as [url'|e];
    [|by left].
  pose proof (buildHTTPRequest_dispatches_nothing httpMethod url' ro') as Hnone.
  destruct (buildHTTPRequest httpMethod url' ro') as [tr [req|e|msg]];
    simpl in *; [|by left|by left].
  destruct (addHTTPHeaders ro' req) as [req'|e|msg]; simpl;
    [|left; by rewrite app_nil_r|left; by rewrite app_nil_r].
  right. exists (addCookies ro' req').
  rewrite dispatched_app, Hnone. done.
Qed.

(** The client passed to [buildRequest] decides where the request goes and
    nothing else: the stream events and the requests are the same. *)
Lemma buildRequest_requests `{E : Env} (Do : Client -> Request -> result http_Response)
    (httpMethod url : string) (ro : option RequestOptions) (c c' : option Client) :
  (dispatched (buildRequest Do httpMethod url ro c).1).*2
  = (dispatched (buildRequest Do httpMethod url ro c').1).*2.
Proof.
  unfold buildRequest.
  set (ro' := match ro with Some ro0 => ro0 | None => zero_RequestOptions end).
  destruct (if decide (size (Params ro') <> 0) then _ else _) as [url'|e]; [|done].
  destruct (buildHTTPRequest httpMethod url' ro') as [tr [req|e|msg]];
    simpl; [|done|done].
  destruct (addHTTPHeaders ro' req) as [req'|e|msg]; simpl; [|done|done].
  by rewrite !dispatched_app, !fmap_app.
Qed.

Lemma buildRequest_clients `{E : Env} (Do : Client -> Request -> result http_Response)
    (httpMethod url : string) (ro : option RequestOptions) (hc : option Client) :
  Forall (fun cr => cr.1 = chosen_client ro hc)
    (dispatched (buildRequest Do httpMethod url ro hc).1).
Proof.
  unfold buildRequest, chosen_client.
  change (default zero_RequestOptions ro)
    with (match ro with Some ro0 => ro0 | None => zero_RequestOptions end).
  set (ro' := match ro with Some ro0 => ro0 | None => zero_RequestOptions end).
  destruct (if decide (size (Params ro') <> 0) then _ else _) as [url'|e]; [|done].
  pose proof (buildHTTPRequest_dispatches_nothing httpMethod url' ro') as Hnone.
  destruct (buildHTTPRequest httpMethod url' ro') as [tr [req|e|msg]];
    simpl in *; [|by rewrite Hnone|by rewrite Hnone].
  destruct (addHTTPHeaders ro' req) as [req'|e|msg]; simpl;
    rewrite dispatched_app, Hnone; [|done|done].
  by apply Forall_singleton.
Qed.

(** X3: a session request goes to the session's client whatever the options
    hold, a regular request goes to the client [BuildHTTPClient] gives for
    the options (the options' own client when they carry one), and the two
    send the same requests: the session changes the client only.  A session
    without a client is a regular request. *)
Theorem doSessionRequest_client `{E : Env} (Do : Client -> Request -> result http_Response)
    {Response : Type} (buildResponse : result http_Response -> result Response)
    (requestVerb url : string) (ro : option RequestOptions) :
  (forall c,
     Forall (fun cr => cr.1 = c)
       (dispatched (doSessionRequest Do buildResponse requestVerb url ro (Some c)).1) /\
     (dispatched (doSessionRequest Do buildResponse requestVerb url ro (Some c)).1).*2
       = (dispatched (doRegularRequest Do buildResponse requestVerb url ro).1).*2) /\
  Forall (fun cr => cr.1 = BuildHTTPClient (default zero_RequestOptions ro))
    (dispatched (doRegularRequest Do buildResponse requestVerb url ro).1) /\
  (forall ro' c, ro = Some ro' -> HTTPClient ro' = Some c ->
     Forall (fun cr => cr.1 = c)
       (dispatched (doRegularRequest Do buildResponse requestVerb url ro).1)) /\
  doSessionRequest Do buildResponse requestVerb url ro None
    = doRegularRequest Do buildResponse requestVerb url ro.
Proof.
  pose proof (buildRequest_clients Do requestVerb url ro) as Hto.
  split; [|split; [|split]].
  - intros c. split; [apply (Hto (Some c))|].
    apply buildRequest_requests.
  - apply (Hto None).
  - intros ro' c -> Hc.
    pose proof (Hto None) as H. unfold chosen_client, BuildHTTPClient in H.
    simpl in H. by rewrite Hc in H.
  - reflexivity.
Qed.

(** ** Headers *)

Lemma Header_Set_Get_eq `{E : Env} (req : Request) (key value : string) :
  HttpHeader.Get (Header (Header_Set req key value)) key = value.
Proof. apply Get_Set_eq. Qed.

Lemma Header_Set_Get_ne `{E : Env} (req : Request) (key key' value : string) :
  Textproto.CanonicalMIMEHeaderKey key <> Textproto.CanonicalMIMEHeaderKey key' ->
  HttpHeader.Get (Header (Header_Set req key value)) key'
  = HttpHeader.Get (Header req) key'.
Proof. apply Get_Set_ne. Qed.

(** The loop over [Headers], on a list of entries. *)
Lemma set_headers_cons `{E : Env} (req : Request) (k v : string)
    (l : list (string * string)) :
  foldl (fun req kv => Header_Set req kv.1 kv.2) req ((k, v) :: l)
  = foldl (fun req kv => Header_Set req kv.1 kv.2) (Header_Set req k v) l.
Proof. reflexivity. Qed.

Lemma set_headers_frame `{E : Env} (l : list (string * string)) (req : Request) :
  Method (foldl (fun req kv => Header_Set req kv.1 kv.2) req l) = Method req /\
  URL (foldl (fun req kv => Header_Set req kv.1 kv.2) req l) = URL req /\
  Body (foldl (fun req kv => Header_Set req kv.1 kv.2) req l) = Body req.
Proof.
  revert req. induction l as [|[k v] l IH]; intros req; [done|].
  rewrite set_headers_cons. by destruct (IH (Header_Set req k v)) as (-> & -> & ->).
Qed.

Lemma set_headers_other `{E : Env} (l : list (string * string)) (req : Request)
    (key : string) :
  (forall k v, (k, v) ∈ l ->
     Textproto.CanonicalMIMEHeaderKey k <> Textproto.CanonicalMIMEHeaderKey key) ->
  HttpHeader.Get (Header (foldl (fun req kv => Header_Set req kv.1 kv.2) req l)) key
  = HttpHeader.Get (Header req) key.
Proof.
  revert req. induction l as [|[k v] l IH]; intros req Hl; [done|].
  rewrite set_headers_cons, IH.
  - apply Header_Set_Get_ne, (Hl k v), elem_of_cons. by left.
  - intros k' v' Hin. apply (Hl k' v'), elem_of_cons. by right.
Qed.

Lemma set_headers_in `{E : Env} (l : list (string * string)) (req : Request)
    (key value : string) :
  NoDup l.*1 ->
  (key, value) ∈ l ->
  (forall k v, (k, v) ∈ l ->
     Textproto.CanonicalMIMEHeaderKey k = Textproto.CanonicalMIMEHeaderKey key ->
     k = key) ->
  HttpHeader.Get (Header (foldl (fun req kv => Header_Set req kv.1 kv.2) req l)) key
  = value.
Proof.
  revert req. induction l as [|[k v] l IH]; intros req Hnd Hin Huniq.
  - by apply not_elem_of_nil in Hin.
  - rewrite fmap_cons in Hnd. apply NoDup_cons in Hnd as [Hk Hnd].
    rewrite set_headers_cons.
    apply elem_of_cons in Hin as [Heq|Hin].
    + injection Heq as -> ->.
      rewrite set_headers_other; [apply Header_Set_Get_eq|].
      intros k' v' Hin' Hcanon. apply Hk.
      assert (Hsame : k' = k).
      { apply (Huniq k' v'); [|done]. apply elem_of_cons. by right. }
      subst k'. apply list_elem_of_fmap. by exists (k, v').
    + apply IH; [done|done|].
      intros k' v' Hin'. apply (Huniq k' v'), elem_of_cons. by right.
Qed.

(** X4: on a request that [addHTTPHeaders] returns, User-Agent is the
    options' user agent, or the package's default when that is empty, and
    with IsAjax set X-Requested-With is XMLHttpRequest, whatever Headers
    holds under those names; method, URL and body are as they were. *)
Theorem addHTTPHeaders_fixed `{E : Env} (ro : RequestOptions) (req req' : Request) :
  addHTTPHeaders ro req = Ret req' ->
  HttpHeader.Get (Header req') "User-Agent"
    = (if decide (UserAgent ro = EmptyString) then localUserAgent else UserAgent ro) /\
  (IsAjax ro = true ->
     HttpHeader.Get (Header req') "X-Requested-With" = "XMLHttpRequest") /\
  Method req' = Method req /\ URL req' = URL req /\ Body req' = Body req.
Proof.
  unfold addHTTPHeaders.
  destruct (set_headers_frame (map_range (Headers ro)) req) as (Hm & Hu & Hb).
  set (req1 := foldl _ req _) in *.
  assert (Hua : forall req2,
            HttpHeader.Get (Header (Header_Set req2 "User-Agent"
              (if decide (UserAgent ro = EmptyString) then localUserAgent
               else UserAgent ro))) "User-Agent"
            = (if decide (UserAgent ro = EmptyString) then localUserAgent
               else UserAgent ro))
    by (intros; apply Header_Set_Get_eq).
  assert (Hreq2 : (if decide (UserAgent ro <> EmptyString)
                   then Header_Set req1 "User-Agent" (UserAgent ro)
                   else Header_Set req1 "User-Agent" localUserAgent)
                  = Header_Set req1 "User-Agent"
                      (if decide (UserAgent ro = EmptyString) then localUserAgent
                       else UserAgent ro)).
  { by repeat case_decide. }
  rewrite Hreq2. clear Hreq2.
  set (ua := if decide (UserAgent ro = EmptyString) then _ else _) in *.
  assert (Hauth : forall u p,
            HttpHeader.Get (Header (SetBasicAuth (Header_Set req1 "User-Agent" ua) u p))
              "User-Agent" = ua).
  { intros u p. unfold SetBasicAuth. rewrite Header_Set_Get_ne; [apply Hua|].
    by autorewrite with canonical. }
  destruct (Auth ro) as [auth|].
  - destruct (auth !! 0%nat) as [u|]; [|done].
    destruct (auth !! 1%nat) as [p|]; [|done].
    intros [= <-]. destruct (IsAjax ro); cbn [Bool.eqb].
    + split; [|split; [intros _; apply Header_Set_Get_eq|]].
      * rewrite Header_Set_Get_ne; [apply Hauth|]. by autorewrite with canonical.
      * split; [exact Hm|split; [exact Hu|exact Hb]].
    + split; [apply Hauth|]. split; [done|].
      split; [exact Hm|split; [exact Hu|exact Hb]].
  - intros [= <-]. destruct (IsAjax ro); cbn [Bool.eqb].
    + split; [|split; [intros _; apply Header_Set_Get_eq|]].
      * rewrite Header_Set_Get_ne; [apply Hua|]. by autorewrite with canonical.
      * split; [exact Hm|split; [exact Hu|exact Hb]].
    + split; [apply Hua|]. split; [done|].
      split; [exact Hm|split; [exact Hu|exact Hb]].
Qed.

Lemma addHTTPHeaders_fixed_witness :
  addHTTPHeaders (Sample.decorated {[ "User-Agent" := "curl" ]} EmptyString true [])
    Sample.plain_request
    = Ret (Header_Set
             (Header_Set (Header_Set Sample.plain_request "User-Agent" "curl")
                "User-Agent" "GRequests")
             "X-Requested-With" "XMLHttpRequest") /\
  HttpHeader.Get
    (Header (Header_Set
               (Header_Set (Header_Set Sample.plain_request "User-Agent" "curl")
                  "User-Agent" "GRequests")
               "X-Requested-With" "XMLHttpRequest")) "User-Agent"
    = (if decide (EmptyString = EmptyString) then "GRequests" else EmptyString) /\
  (true = true ->
     HttpHeader.Get
       (Header (Header_Set
                  (Header_Set (Header_Set Sample.plain_request "User-Agent" "curl")
                     "User-Agent" "GRequests")
                  "X-Requested-With" "XMLHttpRequest")) "X-Requested-With"
       = "XMLHttpRequest") /\
  "GET" = "GET" /\
  URL Sample.plain_request = URL Sample.plain_request /\
  nil_Reader = nil_Reader.
Proof.
  assert (Hrun :
    addHTTPHeaders (Sample.decorated {[ "User-Agent" := "curl" ]} EmptyString true [])
      Sample.plain_request
      = Ret (Header_Set
               (Header_Set (Header_Set Sample.plain_request "User-Agent" "curl")
                  "User-Agent" "GRequests")
               "X-Requested-With" "XMLHttpRequest")) by reflexivity.
  split; [exact Hrun|].
  exact (@addHTTPHeaders_fixed Sample.env _ _ _ Hrun).
Defined.

(** X5: an entry of Headers is on the request that [addHTTPHeaders] returns,
    replacing what the request carried under that name (a content type set
    by the body encoder, for one), provided no other key of Headers has the
    same canonical form and the name is not one the function sets itself:
    User-Agent, Authorization when Auth is set, X-Requested-With when IsAjax
    is set.  The order in which the map is iterated does not matter. *)
Theorem addHTTPHeaders_custom `{E : Env} (ro : RequestOptions) (req req' : Request)
    (key value : string) :
  addHTTPHeaders ro req = Ret req' ->
  Headers ro !! key = Some value ->
  (forall k, is_Some (Headers ro !! k) ->
     Textproto.CanonicalMIMEHeaderKey k = Textproto.CanonicalMIMEHeaderKey key ->
     k = key) ->
  Textproto.CanonicalMIMEHeaderKey key <> "User-Agent" ->
  (Auth ro <> None -> Textproto.CanonicalMIMEHeaderKey key <> "Authorization") ->
  (IsAjax ro = true -> Textproto.CanonicalMIMEHeaderKey key <> "X-Requested-With") ->
  HttpHeader.Get (Header req') key = value.
Proof.
  intros Hrun Hkey Huniq Hua Hauth Hajax.
  assert (H1 : HttpHeader.Get
                 (Header (foldl (fun req kv => Header_Set req kv.1 kv.2) req
                            (map_range (Headers ro)))) key = value).
  { apply set_headers_in.
    - apply map_range_NoDup.
    - by apply elem_of_map_range.
    - intros k v Hin. apply Huniq. apply elem_of_map_range in Hin. by exists v. }
  revert Hrun. unfold addHTTPHeaders.
  set (req1 := foldl _ req _) in *.
  assert (H2 : forall ua,
            HttpHeader.Get (Header (Header_Set req1 "User-Agent" ua)) key = value).
  { intros ua. rewrite Header_Set_Get_ne; [done|].
    autorewrite with canonical. by intros Heq. }
  assert (Hreq2 : exists ua,
            (if decide (UserAgent ro <> EmptyString)
             then Header_Set req1 "User-Agent" (UserAgent ro)
             else Header_Set req1 "User-Agent" localUserAgent)
            = Header_Set req1 "User-Agent" ua).
  { case_decide; by eexists. }
  destruct Hreq2 as [ua ->]. specialize (H2 ua).
  set (req2 := Header_Set req1 "User-Agent" ua) in *.
  assert (H3 : forall req3, HttpHeader.Get (Header req3) key = value ->
            HttpHeader.Get
              (Header (if Bool.eqb (IsAjax ro) true
                       then Header_Set req3 "X-Requested-With" "XMLHttpRequest"
                       else req3)) key = value).
  { intros req3 Hreq3. destruct (IsAjax ro); cbn [Bool.eqb]; [|done].
    rewrite Header_Set_Get_ne; [done|].
    autorewrite with canonical. intros Heq. by apply Hajax. }
  destruct (Auth ro) as [auth|].
  - destruct (auth !! 0%nat) as [u|]; [|done].
    destruct (auth !! 1%nat) as [p|]; [|done].
    intros [= <-]. apply H3. unfold SetBasicAuth.
    rewrite Header_Set_Get_ne; [done|].
    autorewrite with canonical. intros Heq. by apply Hauth.
  - intros [= <-]. by apply H3.
Qed.

Lemma addHTTPHeaders_custom_witness :
  addHTTPHeaders (Sample.decorated {[ "content-type" := "text/csv" ]} "curl" false [])
    (Header_Set Sample.plain_request "Content-Type" "application/json")
    = Ret (Header_Set
             (Header_Set
                (Header_Set Sample.plain_request "Content-Type" "application/json")
                "content-type" "text/csv")
             "User-Agent" "curl") /\
  ({[ "content-type" := "text/csv" ]} : gmap string string) !! "content-type"
    = Some "text/csv" /\
  (forall k, is_Some (({[ "content-type" := "text/csv" ]} : gmap string string) !! k) ->
     Textproto.CanonicalMIMEHeaderKey k = Textproto.CanonicalMIMEHeaderKey "content-type" ->
     k = "content-type") /\
  Textproto.CanonicalMIMEHeaderKey "content-type" <> "User-Agent" /\
  (@None (list string) <> None ->
     Textproto.CanonicalMIMEHeaderKey "content-type" <> "Authorization") /\
  (false = true ->
     Textproto.CanonicalMIMEHeaderKey "content-type" <> "X-Requested-With") /\
  HttpHeader.Get
    (Header (Header_Set
               (Header_Set
                  (Header_Set Sample.plain_request "Content-Type" "application/json")
                  "content-type" "text/csv")
               "User-Agent" "curl")) "content-type"
    = "text/csv".
Proof.
  assert (Hrun :
    addHTTPHeaders (Sample.decorated {[ "content-type" := "text/csv" ]} "curl" false [])
      (Header_Set Sample.plain_request "Content-Type" "application/json")
      = Ret (Header_Set
               (Header_Set
                  (Header_Set Sample.plain_request "Content-Type" "application/json")
                  "content-type" "text/csv")
               "User-Agent" "curl")) by reflexivity.
  assert (Hkey : ({[ "content-type" := "text/csv" ]} : gmap string string)
                   !! "content-type" = Some "text/csv") by reflexivity.
  assert (Huniq : forall k,
    is_Some (({[ "content-type" := "text/csv" ]} : gmap string string) !! k) ->
    Textproto.CanonicalMIMEHeaderKey k = Textproto.CanonicalMIMEHeaderKey "content-type" ->
    k = "content-type").
  { intros k [v Hk] _. by apply lookup_singleton_Some in Hk as [<- _]. }
  assert (Hua : Textproto.CanonicalMIMEHeaderKey "content-type" <> "User-Agent")
    by discriminate.
  assert (Hauth : @None (list string) <> None ->
            Textproto.CanonicalMIMEHeaderKey "content-type" <> "Authorization")
    by discriminate.
  assert (Hajax : false = true ->
            Textproto.CanonicalMIMEHeaderKey "content-type" <> "X-Requested-With")
    by discriminate.
  split; [exact Hrun|]. split; [exact Hkey|]. split; [exact Huniq|].
  split; [exact Hua|]. split; [exact Hauth|]. split; [exact Hajax|].
  exact (@addHTTPHeaders_custom Sample.env _ _ _ "content-type" "text/csv"
           Hrun Hkey Huniq Hua Hauth Hajax).
Defined.

(** The same request, evaluated: the caller's content type has replaced the
    encoder's, under the canonical name. *)
Example custom_content_type_sample :
  exists req',
    addHTTPHeaders (Sample.decorated {[ "content-type" := "text/csv" ]} "curl" false [])
      (Header_Set Sample.plain_request "Content-Type" "application/json") = Ret req' /\
    Header req' !! "Content-Type" = Some ["text/csv"] /\
    Header req' !! "content-type" = None /\
    Header req' !! "User-Agent" = Some ["curl"].
Proof. eexists. split; [reflexivity|]. repeat split; by vm_compute. Qed.

(** ** Cookies *)

Lemma join_with_nonempty (sep : string) (ps : list string) :
  ps <> [] -> Forall (fun p => p <> EmptyString) ps -> join_with sep ps <> EmptyString.
Proof.
  destruct ps as [|p ps]; [done|]. intros _ Hall.
  apply Forall_cons in Hall as [Hp _].
  destruct ps as [|q ps]; [done|].
  change (join_with sep (p :: q :: ps)) with (p +:+ sep +:+ join_with sep (q :: ps)).
  destruct p; [done|by rewrite append_cons].
Qed.

Lemma join_with_snoc (sep : string) (ps : list string) (p : string) :
  ps <> [] -> join_with sep (ps ++ [p]) = join_with sep ps +:+ sep +:+ p.
Proof.
  induction ps as [|q ps IH]; [done|]. intros _.
  destruct ps as [|r ps]; [done|].
  change (join_with sep ((q :: r :: ps) ++ [p]))
    with (q +:+ sep +:+ join_with sep ((r :: ps) ++ [p])).
  rewrite IH by done.
  change (join_with sep (q :: r :: ps)) with (q +:+ sep +:+ join_with sep (r :: ps)).
  by rewrite !append_assoc.
Qed.

Lemma cookie_text_nonempty `{E : Env} (c : Cookie) : cookie_text c <> EmptyString.
Proof. unfold cookie_text. intros H. by apply append_empty_inv in H. Qed.

Lemma canonical_Cookie : Textproto.CanonicalMIMEHeaderKey "Cookie" = "Cookie".
Proof. reflexivity. Qed.

Lemma AddCookie_Cookie `{E : Env} (req : Request) (c : Cookie) (acc : list string) :
  Forall (fun p => p <> EmptyString) acc ->
  HttpHeader.Get (Header req) "Cookie" = join_with "; " acc ->
  HttpHeader.Get (Header (AddCookie req c)) "Cookie"
  = join_with "; " (acc ++ [cookie_text c]).
Proof.
  intros Hall Hold. unfold AddCookie. fold (cookie_text c). rewrite Hold.
  destruct acc as [|p acc].
  - rewrite decide_False by (intros H; by apply H). apply Header_Set_Get_eq.
  - rewrite decide_True by (by apply join_with_nonempty).
    rewrite Header_Set_Get_eq. by rewrite join_with_snoc.
Qed.

Lemma AddCookie_frame `{E : Env} (req : Request) (c : Cookie) :
  Method (AddCookie req c) = Method req /\
  URL (AddCookie req c) = URL req /\
  Body (AddCookie req c) = Body req /\
  forall key, Textproto.CanonicalMIMEHeaderKey key <> "Cookie" ->
    HttpHeader.Get (Header (AddCookie req c)) key = HttpHeader.Get (Header req) key.
Proof.
  unfold AddCookie. case_decide; (repeat split; [done..|]);
    intros key Hkey; apply Header_Set_Get_ne; rewrite canonical_Cookie; congruence.
Qed.

Lemma add_cookies_Cookie `{E : Env} (cs : list Cookie) (req : Request)
    (acc : list string) :
  Forall (fun p => p <> EmptyString) acc ->
  HttpHeader.Get (Header req) "Cookie" = join_with "; " acc ->
  HttpHeader.Get (Header (foldl AddCookie req cs)) "Cookie"
  = join_with "; " (acc ++ (cookie_text <$> cs)).
Proof.
  revert req acc. induction cs as [|c cs IH]; intros req acc Hall Hold.
  - by rewrite app_nil_r.
  - simpl. rewrite (IH _ (acc ++ [cookie_text c])%list).
    + by rewrite <- app_assoc.
    + apply Forall_app. split; [done|]. apply Forall_singleton, cookie_text_nonempty.
    + by apply AddCookie_Cookie.
Qed.

Lemma add_cookies_frame `{E : Env} (cs : list Cookie) (req : Request) :
  Method (foldl AddCookie req cs) = Method req /\
  URL (foldl AddCookie req cs) = URL req /\
  Body (foldl AddCookie req cs) = Body req /\
  forall key, Textproto.CanonicalMIMEHeaderKey key <> "Cookie" ->
    HttpHeader.Get (Header (foldl AddCookie req cs)) key = HttpHeader.Get (Header req) key.
Proof.
  revert req. induction cs as [|c cs IH]; intros req; [done|].
  simpl. destruct (IH (AddCookie req c)) as (-> & -> & -> & Hk).
  destruct (AddCookie_frame req c) as (-> & -> & -> & Hk').
  repeat split; [done..|]. intros key Hkey. by rewrite Hk, Hk'.
Qed.

(** X6: after [addCookies] the Cookie header is the request's earlier Cookie
    value, if it had one, followed by the [name=value] texts of the options'
    cookies in the order of the list, all joined by [; ]; every other
    header, the method, the URL and the body are as they were. *)
Theorem addCookies_header `{E : Env} (ro : RequestOptions) (req : Request) :
  HttpHeader.Get (Header (addCookies ro req)) "Cookie"
    = join_with "; "
        ((if decide (HttpHeader.Get (Header req) "Cookie" = EmptyString) then []
          else [HttpHeader.Get (Header req) "Cookie"])
         ++ (cookie_text <$> Cookies ro)) /\
  (forall key, Textproto.CanonicalMIMEHeaderKey key <> "Cookie" ->
     HttpHeader.Get (Header (addCookies ro req)) key = HttpHeader.Get (Header req) key) /\
  Method (addCookies ro req) = Method req /\
  URL (addCookies ro req) = URL req /\
  Body (addCookies ro req) = Body req.
Proof.
  unfold addCookies.
  destruct (add_cookies_frame (Cookies ro) req) as (Hm & Hu & Hb & Hk).
  split; [|done].
  apply add_cookies_Cookie; case_decide as Hold.
  - done.
  - by apply Forall_singleton.
  - by rewrite Hold.
  - done.
Qed.

(** Two cookies on a request without one, evaluated. *)
Example two_cookies_sample :
  HttpHeader.Get
    (Header (addCookies
               (Sample.decorated ∅ EmptyString false
                  [ {| Name := "sid"; Value := "42" |};
                    {| Name := "lang"; Value := "en" |} ])
               Sample.plain_request)) "Cookie"
  = "sid=42; lang=en".
Proof. by vm_compute. Qed.

(** ** The upload stream *)

(** X7: building a request touches the upload stream only on the multipart
    path, that is with JSON and XML nil, a file set and the verb POST; there
    the stream is read at most once and closed at most once, and never
    closed unless it was read.  On every other path (JSON or XML set, no
    file, or a verb other than POST) the stream is neither read nor closed
    by the builder. *)
Theorem buildHTTPRequest_stream `{E : Env} (httpMethod userURL : string)
    (ro : RequestOptions) :
  (buildHTTPRequest httpMethod userURL ro).1 = [] \/
  (JSON ro = None /\ XML ro = None /\ is_Some (File ro) /\ httpMethod = "POST" /\
   ((buildHTTPRequest httpMethod userURL ro).1 = [stream_Read] \/
    (buildHTTPRequest httpMethod userURL ro).1 = [stream_Read; stream_Close])).
Proof.
  unfold buildHTTPRequest.
  case_decide as Hj; [by left|].
  case_decide as Hx; [by left|].
  apply eq_None_not_Some in Hj, Hx.
  case_decide as Hf.
  - unfold createFileUploadRequest. case_decide as Hpost.
    + destruct (createMultiPartPostRequest_trace httpMethod userURL ro)
        as [Htr | [Htr | Htr]]; rewrite Htr; [by left|right..];
        repeat split; auto.
    + left. destruct (File ro); [|done]. by destruct (http_NewRequest _ _ _).
  - left. by case_decide.
Qed.

(** X8: a POST upload whose file carries no stream fails with the package's
    own error once the file part is created; nothing is read, closed or
    dispatched, whatever else the options hold besides JSON and XML, and
    with no Params that error is the result of the whole call. *)
Theorem nil_FileContents `{E : Env} (Do : Client -> Request -> result http_Response)
    (url : string) (ro : RequestOptions) (file : FileUpload) (writer : multipart_Writer)
    (httpClient : option Client) :
  JSON ro = None -> XML ro = None ->
  File ro = Some file -> FileContents file = None ->
  multipart_CreateFormFile multipart_NewWriter "file" (FileName file) = Ok writer ->
  (forall userURL,
     buildHTTPRequest "POST" userURL ro = ([], Fail ErrNilFileContents)) /\
  (buildRequest Do "POST" url (Some ro) httpClient).1 = [] /\
  (exists err, (buildRequest Do "POST" url (Some ro) httpClient).2 = Fail err) /\
  (Params ro = ∅ ->
     buildRequest Do "POST" url (Some ro) httpClient = ([], Fail ErrNilFileContents)).
Proof.
  intros Hj Hx Hf Hc Hw.
  assert (Hbuild : forall userURL,
            buildHTTPRequest "POST" userURL ro = ([], Fail ErrNilFileContents)).
  { intros userURL. unfold buildHTTPRequest. rewrite Hj, Hx, Hf.
    rewrite !decide_False by apply is_Some_None. rewrite decide_True by done.
    unfold createFileUploadRequest. rewrite decide_True by done.
    unfold createMultiPartPostRequest. by rewrite Hf, Hw, Hc. }
  split; [exact Hbuild|].
  unfold buildRequest.
  split; [|split].
  - destruct (if decide (size (Params ro) <> 0) then _ else _); [|done].
    by rewrite Hbuild.
  - destruct (if decide (size (Params ro) <> 0) then _ else _) as [url'|e].
    + rewrite Hbuild. by eexists.
    + by eexists.
  - intros Hp. rewrite Hp, map_size_empty.
    rewrite decide_False by (intros H; by apply H). by rewrite Hbuild.
Qed.

Lemma nil_FileContents_witness :
  JSON (Sample.options None ∅
          (Some {| FileName := "notes.txt"; FileContents := None |}) None) = None /\
  XML (Sample.options None ∅
         (Some {| FileName := "notes.txt"; FileContents := None |}) None) = None /\
  File (Sample.options None ∅
          (Some {| FileName := "notes.txt"; FileContents := None |}) None)
    = Some {| FileName := "notes.txt"; FileContents := None |} /\
  FileContents {| FileName := "notes.txt"; FileContents := None |} = None /\
  @multipart_CreateFormFile Sample.env multipart_NewWriter "file" "notes.txt"
    = Ok "[part file filename=notes.txt]" /\
  (forall userURL,
     buildHTTPRequest "POST" userURL
       (Sample.options None ∅
          (Some {| FileName := "notes.txt"; FileContents := None |}) None)
     = ([], Fail ErrNilFileContents)) /\
  (buildRequest Sample.Do "POST" "http://example.com/upload"
     (Some (Sample.options None ∅
              (Some {| FileName := "notes.txt"; FileContents := None |}) None))
     None).1 = [] /\
  (exists err,
     (buildRequest Sample.Do "POST" "http://example.com/upload"
        (Some (Sample.options None ∅
                 (Some {| FileName := "notes.txt"; FileContents := None |}) None))
        None).2 = Fail err) /\
  (Params (Sample.options None ∅
             (Some {| FileName := "notes.txt"; FileContents := None |}) None) = ∅ ->
   buildRequest Sample.Do "POST" "http://example.com/upload"
     (Some (Sample.options None ∅
              (Some {| FileName := "notes.txt"; FileContents := None |}) None))
     None
   = ([], Fail ErrNilFileContents)).
Proof.
  split; [reflexivity|]. split; [reflexivity|]. split; [reflexivity|].
  split; [reflexivity|]. split; [reflexivity|].
  exact (@nil_FileContents Sample.env Sample.Do "http://example.com/upload"
           (Sample.options None ∅
              (Some {| FileName := "notes.txt"; FileContents := None |}) None)
           {| FileName := "notes.txt"; FileContents := None |}
           "[part file filename=notes.txt]" None
           eq_refl eq_refl eq_refl eq_refl eq_refl).
Defined.

(** ** Reading back the form body and the rewritten query *)

(** X9: the form body that [encodePostValues] writes for a Data map of at
    most 10000 entries parses back, with no error, to exactly that map, each
    key with its one value, whatever bytes the keys and values hold and
    whatever order the map is iterated in; the body of a larger map is one
    that the parser refuses, with its limit error and no parameter at all;
    for a nil map the body is empty and parses to no pair. *)
Theorem form_body_round_trip `{E : Env} (data : gmap string string) :
  ((N.of_nat (size data) <= Url.defaultMaxParams)%N ->
     Url.ParseQuery (encodePostValues (Some data))
       = ((fun v => [v]) <$> data, None)) /\
  ((Url.defaultMaxParams < N.of_nat (size data))%N ->
     Url.ParseQuery (encodePostValues (Some data))
       = (∅, Some ErrQueryParamsLimit)) /\
  encodePostValues None = EmptyString /\
  Url.ParseQuery (encodePostValues None) = (∅, None).
Proof.
  assert (Hparse : Url.ParseQuery (encodePostValues (Some data))
            = if Url.urlParamsWithinMax (size data)
              then ((fun v => [v]) <$> data, None)
              else (∅, Some ErrQueryParamsLimit)).
  { rewrite encodePostValues_Encode, ParseQuery_Encode, pair_count_singletons; [done|].
    intros k. rewrite lookup_fmap. by destruct (data !! k). }
  split; [|split; [|split]].
  - intros Hle. apply urlParamsWithinMax_le in Hle. by rewrite Hparse, Hle.
  - intros Hgt. apply urlParamsWithinMax_gt in Hgt. by rewrite Hparse, Hgt.
  - unfold encodePostValues, entries. simpl. by rewrite map_range_empty.
  - unfold encodePostValues, entries. simpl. by rewrite map_range_empty.
Qed.

(** A form with bytes that need escaping, evaluated. *)
Example form_body_sample :
  encodePostValues (Some {[ "q" := "a&b=c d"; "lang" := "en" ]})
  = "lang=en&q=a%26b%3Dc+d".
Proof. rewrite encodePostValues_Encode. by vm_compute. Qed.

(** X10: when the URL parses, the query that [buildURLParams] attaches is
    one that parses, with no error, to the parameters that the parser gave
    for the URL's own query, overlaid with Params, as long as these are at
    most 10000 pairs; so pairs of the URL's query that do not parse are not
    in the rewritten URL, and the rewritten query is well formed even when
    the URL's was not.  With more than 10000 pairs the rewritten query is
    one that the parser refuses.  When the URL's own query has more than
    10000 parameters, none of them is in the rewritten query, which holds
    Params alone. *)
Theorem buildURLParams_query_parses `{E : Env} (userURL : string)
    (params : gmap string string) (parsedURL : url_URL) :
  url_Parse userURL = Ok parsedURL ->
  exists query,
    buildURLParams userURL params
      = Ok (Strings.Replace (URL_String parsedURL)
              ("?" +:+ URL_RawQuery parsedURL) EmptyString +:+ "?" +:+ query) /\
    let merged :=
      ((fun v => [v]) <$> params) ∪ (Url.ParseQuery (URL_RawQuery parsedURL)).1 in
    ((N.of_nat (pair_count merged) <= Url.defaultMaxParams)%N ->
       Url.ParseQuery query = (merged, None)) /\
    ((Url.defaultMaxParams < N.of_nat (pair_count merged))%N ->
       Url.ParseQuery query = (∅, Some ErrQueryParamsLimit)) /\
    ((Url.defaultMaxParams
        < N.of_nat (Strings.Count (URL_RawQuery parsedURL) "&" + 1))%N ->
       merged = (fun v => [v]) <$> params).
Proof.
  intros Hparse. unfold buildURLParams. rewrite Hparse.
  pose proof (ParseQuery_no_empty (URL_RawQuery parsedURL)) as Hexisting.
  assert (Hrefused :
    (Url.defaultMaxParams
       < N.of_nat (Strings.Count (URL_RawQuery parsedURL) "&" + 1))%N ->
    (Url.ParseQuery (URL_RawQuery parsedURL)).1 = ∅).
  { intros Hgt. apply urlParamsWithinMax_gt in Hgt.
    unfold Url.ParseQuery. by rewrite Hgt. }
  destruct (Url.ParseQuery (URL_RawQuery parsedURL)) as [existing err].
  simpl in *. rewrite overlay_map_range.
  eexists. split; [reflexivity|].
  set (merged := ((fun v => [v]) <$> params) ∪ existing).
  assert (Hmerged : no_empty_values merged).
  { intros k. unfold merged. rewrite lookup_union, lookup_fmap.
    specialize (Hexisting k).
    destruct (params !! k), (existing !! k) as [[|x l]|]; done. }
  rewrite (ParseQuery_Encode merged Hmerged). split; [|split].
  - intros Hle. apply urlParamsWithinMax_le in Hle. by rewrite Hle.
  - intros Hgt. apply urlParamsWithinMax_gt in Hgt. by rewrite Hgt.
  - intros Hgt. unfold merged. rewrite (Hrefused Hgt).
    by rewrite (right_id_L ∅ (∪)).
Qed.

Lemma buildURLParams_query_parses_witness :
  @url_Parse Sample.env "http://example.com/?a=%zz&b=1"
    = Ok {| Sample.su_base := "http://example.com/";
            Sample.su_query := "a=%zz&b=1";
            Sample.su_fragment := EmptyString |} /\
  exists query,
    @buildURLParams Sample.env "http://example.com/?a=%zz&b=1" {[ "k" := "v" ]}
      = Ok (Strings.Replace "http://example.com/?a=%zz&b=1" "?a=%zz&b=1" EmptyString
            +:+ "?" +:+ query) /\
    let merged :=
      ((fun v => [v]) <$> ({[ "k" := "v" ]} : gmap string string))
        ∪ (Url.ParseQuery "a=%zz&b=1").1 in
    ((N.of_nat (pair_count merged) <= Url.defaultMaxParams)%N ->
       Url.ParseQuery query = (merged, None)) /\
    ((Url.defaultMaxParams < N.of_nat (pair_count merged))%N ->
       Url.ParseQuery query = (∅, Some ErrQueryParamsLimit)) /\
    ((Url.defaultMaxParams < N.of_nat (Strings.Count "a=%zz&b=1" "&" + 1))%N ->
       merged = (fun v => [v]) <$> ({[ "k" := "v" ]} : gmap string string)).
Proof.
  split; [reflexivity|].
  exact (@buildURLParams_query_parses Sample.env "http://example.com/?a=%zz&b=1"
           {[ "k" := "v" ]}
           {| Sample.su_base := "http://example.com/";
              Sample.su_query := "a=%zz&b=1";
              Sample.su_fragment := EmptyString |} eq_refl).
Defined.

(** The same URL, evaluated: the pair with the bad escape is gone. *)
Example malformed_pair_dropped_sample :
  @buildURLParams Sample.env "http://example.com/?a=%zz&b=1" {[ "k" := "v" ]}
  = Ok "http://example.com/?b=1&k=v".
Proof. by vm_compute. Qed.

(** ** The other body encodings *)

(** X11: with JSON nil and XML set, an error of the XML encoder is the
    result; a request that is built has the XML text as its body and
    application/xml as its only header, nothing having been read or closed;
    and the result depends on no field of the options but XML, so a file or
    form data set beside it is ignored. *)
Theorem buildHTTPRequest_XML `{E : Env} (httpMethod userURL : string)
    (ro : RequestOptions) :
  JSON ro = None -> is_Some (XML ro) ->
  (forall err, xml_Encode (XML ro) = Err err ->
     buildHTTPRequest httpMethod userURL ro = ([], Fail err)) /\
  (forall tr req, buildHTTPRequest httpMethod userURL ro = (tr, Ret req) ->
     tr = [] /\
     exists text, xml_Encode (XML ro) = Ok text /\
       Body req = bytes_Buffer text /\
       Header req = {[ "Content-Type" := ["application/xml"] ]}) /\
  (forall ro' : RequestOptions, JSON ro' = None -> XML ro' = XML ro ->
     buildHTTPRequest httpMethod userURL ro' = buildHTTPRequest httpMethod userURL ro).
Proof.
  intros Hj Hx.
  assert (Hpath : forall ro0 : RequestOptions, JSON ro0 = None -> is_Some (XML ro0) ->
            buildHTTPRequest httpMethod userURL ro0
              = pure (createBasicXMLRequest httpMethod userURL ro0)).
  { intros ro0 Hj0 Hx0. unfold buildHTTPRequest. rewrite Hj0.
    rewrite decide_False by apply is_Some_None. by rewrite decide_True. }
  rewrite Hpath by done. unfold createBasicXMLRequest, pure.
  split; [|split].
  - intros err ->. done.
  - intros tr req. destruct (xml_Encode (XML ro)) as [text|e]; [|done].
    new_request. intros [= <- <-]. split; [done|]. exists text.
    unfold Header_Set, set_Header. simpl.
    split; [done|]. split; [done|]. apply Set_Content_Type_empty.
  - intros ro' Hj' Hx'. rewrite Hpath by (by rewrite ?Hx').
    unfold createBasicXMLRequest, pure. by rewrite Hx'.
Qed.

Lemma buildHTTPRequest_XML_witness :
  JSON (Sample.xml_and_form (Some true)) = None /\
  is_Some (XML (Sample.xml_and_form (Some true))) /\
  (forall err, xml_Encode (XML (Sample.xml_and_form (Some true))) = Err err ->
     buildHTTPRequest "POST" "http://example.com/" (Sample.xml_and_form (Some true))
       = ([], Fail err)) /\
  (forall tr req,
     buildHTTPRequest "POST" "http://example.com/" (Sample.xml_and_form (Some true))
       = (tr, Ret req) ->
     tr = [] /\
     exists text, xml_Encode (XML (Sample.xml_and_form (Some true))) = Ok text /\
       Body req = bytes_Buffer text /\
       Header req = {[ "Content-Type" := ["application/xml"] ]}) /\
  (forall ro' : RequestOptions, JSON ro' = None ->
     XML ro' = XML (Sample.xml_and_form (Some true)) ->
     buildHTTPRequest "POST" "http://example.com/" ro'
       = buildHTTPRequest "POST" "http://example.com/" (Sample.xml_and_form (Some true))).
Proof.
  assert (Hx : is_Some (XML (Sample.xml_and_form (Some true)))) by (by eexists).
  split; [reflexivity|]. split; [exact Hx|].
  exact (@buildHTTPRequest_XML Sample.env "POST" "http://example.com/"
           (Sample.xml_and_form (Some true)) eq_refl Hx).
Defined.

(** X12: with JSON, XML and File nil, a nil Data and an empty Data differ:
    with a nil map the request that is built has no body and no header;
    with an empty, non-nil map it has an empty form body and the form
    content type.  In both cases the only failure is that of
    [http.NewRequest]. *)
Theorem buildHTTPRequest_nil_or_empty_Data `{E : Env} (httpMethod userURL : string)
    (ro : RequestOptions) :
  JSON ro = None -> XML ro = None -> File ro = None ->
  (Data ro = None ->
     forall tr req, buildHTTPRequest httpMethod userURL ro = (tr, Ret req) ->
       Body req = nil_Reader /\ Header req = ∅) /\
  (Data ro = Some ∅ ->
     forall tr req, buildHTTPRequest httpMethod userURL ro = (tr, Ret req) ->
       Body req = strings_Reader EmptyString /\
       Header req = {[ "Content-Type" := ["application/x-www-form-urlencoded"] ]}) /\
  (Data ro = None \/ Data ro = Some ∅ ->
     forall tr err, buildHTTPRequest httpMethod userURL ro = (tr, Fail err) ->
       http_NewRequest_parse httpMethod userURL = Err err).
Proof.
  intros Hj Hx Hf. unfold buildHTTPRequest. rewrite Hj, Hx, Hf.
  rewrite !decide_False by apply is_Some_None.
  split; [|split].
  - intros Hd. rewrite Hd, decide_False by apply is_Some_None.
    intros tr req. unfold pure, of_result. new_request. by intros [= <- <-].
  - intros Hd. rewrite Hd, decide_True by done.
    intros tr req. unfold pure, createBasicRequest. new_request.
    intros [= <- <-]. unfold Header_Set, set_Header. simpl.
    split; [|apply Set_Content_Type_empty].
    unfold encodePostValues, entries. rewrite Hd. simpl. by rewrite map_range_empty.
  - intros [Hd|Hd]; rewrite Hd; intros tr err.
    + rewrite decide_False by apply is_Some_None.
      unfold pure, of_result, http_NewRequest.
      destruct (http_NewRequest_parse httpMethod userURL) as [[m u]|e]; [done|].
      by intros [= <- <-].
    + rewrite decide_True by done.
      unfold pure, createBasicRequest, http_NewRequest.
      destruct (http_NewRequest_parse httpMethod userURL) as [[m u]|e]; [done|].
      by intros [= <- <-].
Qed.

Lemma buildHTTPRequest_nil_or_empty_Data_witness :
  JSON (Sample.options (Some ∅) ∅ None None) = None /\
  XML (Sample.options (Some ∅) ∅ None None) = None /\
  File (Sample.options (Some ∅) ∅ None None) = None /\
  (Data (Sample.options (Some ∅) ∅ None None) = None ->
     forall tr req,
       buildHTTPRequest "POST" "http://example.com/" (Sample.options (Some ∅) ∅ None None)
         = (tr, Ret req) ->
       Body req = nil_Reader /\ Header req = ∅) /\
  (Data (Sample.options (Some ∅) ∅ None None) = Some ∅ ->
     forall tr req,
       buildHTTPRequest "POST" "http://example.com/" (Sample.options (Some ∅) ∅ None None)
         = (tr, Ret req) ->
       Body req = strings_Reader EmptyString /\
       Header req = {[ "Content-Type" := ["application/x-www-form-urlencoded"] ]}) /\
  (Data (Sample.options (Some ∅) ∅ None None) = None \/
   Data (Sample.options (Some ∅) ∅ None None) = Some ∅ ->
     forall tr err,
       buildHTTPRequest "POST" "http://example.com/" (Sample.options (Some ∅) ∅ None None)
         = (tr, Fail err) ->
       @http_NewRequest_parse Sample.env "POST" "http://example.com/" = Err err).
Proof.
  split; [reflexivity|]. split; [reflexivity|]. split; [reflexivity|].
  exact (@buildHTTPRequest_nil_or_empty_Data Sample.env "POST" "http://example.com/"
           (Sample.options (Some ∅) ∅ None None) eq_refl eq_refl eq_refl).
Defined.

(** ** The multipart body *)

(** X13: on a POST upload whose stream ends cleanly, the stream is read and
    then closed, and the writer receives all of the stream's bytes in the
    file part and then every entry of Data as a form field, each exactly
    once (none for a nil Data); a request that is built has the closed
    writer's bytes as its body and the writer's content type as its only
    header. *)
Theorem createMultiPartPostRequest_parts `{E : Env} (httpMethod userURL : string)
    (ro : RequestOptions) (file : FileUpload) (contents : ReadCloser)
    (writer : multipart_Writer) :
  File ro = Some file ->
  FileContents file = Some contents ->
  rc_end contents = io_EOF ->
  multipart_CreateFormFile multipart_NewWriter "file" (FileName file) = Ok writer ->
  exists (fields : list (string * string)) (filled : multipart_Writer),
    fields ≡ₚ map_to_list (default ∅ (Data ro)) /\
    filled = foldl (fun w kv => multipart_WriteField w kv.1 kv.2)
               (multipart_part_Write writer (rc_data contents)) fields /\
    (createMultiPartPostRequest httpMethod userURL ro).1 = [stream_Read; stream_Close] /\
    (forall err, multipart_Close filled = Err err ->
       (createMultiPartPostRequest httpMethod userURL ro).2 = Fail err) /\
    (forall req, (createMultiPartPostRequest httpMethod userURL ro).2 = Ret req ->
       exists closed, multipart_Close filled = Ok closed /\
         Body req = bytes_Buffer (multipart_Bytes closed) /\
         Header req = {[ "Content-Type" := [multipart_FormDataContentType closed] ]}).
Proof.
  intros Hfile Hcontents Hend Hpart.
  exists (entries (Data ro)). eexists. split; [apply map_range_perm|].
  split; [reflexivity|].
  unfold createMultiPartPostRequest. rewrite Hfile, Hpart, Hcontents.
  unfold io_Copy, emit, defer, pure. rewrite decide_True by done. simpl.
  destruct (multipart_Close _) as [closed|e].
  - destruct (http_NewRequest _ _ _) as [req|e] eqn:Hreq; simpl.
    + split; [done|]. split; [done|]. intros req' [= <-]. exists closed.
      destruct (http_NewRequest_Ok _ _ _ _ Hreq) as [Hhdr Hbody].
      split; [done|]. unfold Header_Add, set_Header, HttpHeader.Add. simpl.
      split; [done|]. autorewrite with canonical.
      by rewrite Hhdr, lookup_total_empty, insert_empty.
    + split; [done|]. split; done.
  - simpl. split; [done|]. split; [by intros err [= <-]|done].
Qed.

Lemma createMultiPartPostRequest_parts_witness :
  File (Sample.options (Some {[ "note" := "hi" ]}) ∅
          (Some {| FileName := "notes.txt"; FileContents := Some Sample.ten_bytes |}) None)
    = Some {| FileName := "notes.txt"; FileContents := Some Sample.ten_bytes |} /\
  FileContents {| FileName := "notes.txt"; FileContents := Some Sample.ten_bytes |}
    = Some Sample.ten_bytes /\
  rc_end Sample.ten_bytes = io_EOF /\
  @multipart_CreateFormFile Sample.env multipart_NewWriter "file" "notes.txt"
    = Ok "[part file filename=notes.txt]" /\
  exists (fields : list (string * string)) (filled : @multipart_Writer Sample.env),
    fields ≡ₚ map_to_list (default ∅ (Some ({[ "note" := "hi" ]} : gmap string string))) /\
    filled = foldl (fun w kv => multipart_WriteField w kv.1 kv.2)
               (multipart_part_Write "[part file filename=notes.txt]"
                  (rc_data Sample.ten_bytes)) fields /\
    (createMultiPartPostRequest "POST" "http://example.com/upload"
       (Sample.options (Some {[ "note" := "hi" ]}) ∅
          (Some {| FileName := "notes.txt"; FileContents := Some Sample.ten_bytes |})
          None)).1 = [stream_Read; stream_Close] /\
    (forall err, multipart_Close filled = Err err ->
       (createMultiPartPostRequest "POST" "http://example.com/upload"
          (Sample.options (Some {[ "note" := "hi" ]}) ∅
             (Some {| FileName := "notes.txt"; FileContents := Some Sample.ten_bytes |})
             None)).2 = Fail err) /\
    (forall req,
       (createMultiPartPostRequest "POST" "http://example.com/upload"
          (Sample.options (Some {[ "note" := "hi" ]}) ∅
             (Some {| FileName := "notes.txt"; FileContents := Some Sample.ten_bytes |})
             None)).2 = Ret req ->
       exists closed, multipart_Close filled = Ok closed /\
         Body req = bytes_Buffer (multipart_Bytes closed) /\
         Header req = {[ "Content-Type" := [multipart_FormDataContentType closed] ]}).
Proof.
  split; [reflexivity|]. split; [reflexivity|]. split; [reflexivity|].
  split; [reflexivity|].
  exact (@createMultiPartPostRequest_parts Sample.env "POST" "http://example.com/upload"
           (Sample.options (Some {[ "note" := "hi" ]}) ∅
              (Some {| FileName := "notes.txt"; FileContents := Some Sample.ten_bytes |})
              None)
           {| FileName := "notes.txt"; FileContents := Some Sample.ten_bytes |}
           Sample.ten_bytes "[part file filename=notes.txt]"
           eq_refl eq_refl eq_refl eq_refl).
Defined.

(** The ten-byte upload with one form field, evaluated on the sample
    writer: the file part with the ten bytes, then the field. *)
Example multipart_body_sample :
  exists req,
    (createMultiPartPostRequest "POST" "http://example.com/upload"
       (Sample.options (Some {[ "note" := "hi" ]}) ∅
          (Some {| FileName := "notes.txt"; FileContents := Some Sample.ten_bytes |})
          None)).2 = Ret req /\
    Body req
      = bytes_Buffer "[part file filename=notes.txt]0123456789[field note]hi[end]".
Proof. eexists. split; [reflexivity|]. by vm_compute. Qed.

(** ** What the transport receives *)

Lemma addHTTPHeaders_User_Agent `{E : Env} (ro : RequestOptions) (req req' : Request) :
  addHTTPHeaders ro req = Ret req' ->
  HttpHeader.Get (Header req') "User-Agent"
    = (if decide (UserAgent ro = EmptyString) then localUserAgent else UserAgent ro).
Proof.
  unfold addHTTPHeaders. set (req1 := foldl _ req _).
  assert (Hreq2 : (if decide (UserAgent ro <> EmptyString)
                   then Header_Set req1 "User-Agent" (UserAgent ro)
                   else Header_Set req1 "User-Agent" localUserAgent)
                  = Header_Set req1 "User-Agent"
                      (if decide (UserAgent ro = EmptyString) then localUserAgent
                       else UserAgent ro)).
  { by repeat case_decide. }
  rewrite Hreq2. clear Hreq2.
  set (ua := if decide (UserAgent ro = EmptyString) then _ else _).
  assert (Hajax : forall req3, HttpHeader.Get (Header req3) "User-Agent" = ua ->
            HttpHeader.Get
              (Header (if Bool.eqb (IsAjax ro) true
                       then Header_Set req3 "X-Requested-With" "XMLHttpRequest"
                       else req3)) "User-Agent" = ua).
  { intros req3 Hreq3. destruct (IsAjax ro); cbn [Bool.eqb]; [|done].
    rewrite Header_Set_Get_ne; [done|]. by autorewrite with canonical. }
  destruct (Auth ro) as [auth|].
  - destruct (auth !! 0%nat) as [u|]; [|done].
    destruct (auth !! 1%nat) as [p|]; [|done].
    intros [= <-]. apply Hajax. unfold SetBasicAuth.
    rewrite Header_Set_Get_ne; [apply Header_Set_Get_eq|].
    by autorewrite with canonical.
  - intros [= <-]. apply Hajax, Header_Set_Get_eq.
Qed.

(** X14: every request that [buildRequest] hands to a client carries a
    User-Agent: the options' user agent, or the package's default when that
    is empty or the options are nil; neither Headers nor the cookies change
    it. *)
Theorem buildRequest_User_Agent `{E : Env} (Do : Client -> Request -> result http_Response)
    (httpMethod url : string) (ro : option RequestOptions) (httpClient : option Client) :
  Forall (fun cr =>
            HttpHeader.Get (Header cr.2) "User-Agent"
            = (if decide (UserAgent (default zero_RequestOptions ro) = EmptyString)
               then localUserAgent
               else UserAgent (default zero_RequestOptions ro)))
    (dispatched (buildRequest Do httpMethod url ro httpClient).1).
Proof.
  unfold buildRequest.
  change (match ro with Some ro0 => ro0 | None => zero_RequestOptions end)
    with (default zero_RequestOptions ro).
  set (ro' := default zero_RequestOptions ro).
  destruct (if decide (size (Params ro') <> 0) then _ else _) as [url'|e]; [|done].
  pose proof (buildHTTPRequest_dispatches_nothing httpMethod url' ro') as Hnone.
  destruct (buildHTTPRequest httpMethod url' ro') as [tr [req|e|msg]];
    simpl in *; [|by rewrite Hnone|by rewrite Hnone].
  destruct (addHTTPHeaders ro' req) as [req'|e|msg] eqn:Hreq'; simpl;
    rewrite dispatched_app, Hnone; [|done|done].
  apply Forall_singleton. simpl. unfold addCookies.
  destruct (add_cookies_frame (Cookies ro') req') as (_ & _ & _ & Hk).
  rewrite Hk by (by autorewrite with canonical).
  by apply (addHTTPHeaders_User_Agent ro' req req').
Qed.
